(** * Task2.py: CSV sales data -> summary statistics -> PDF report

    A shallow embedding of [read_data], [analyze_data], [generate_report]
    and [main] of [Task2.py], and the properties of the specification that
    are settled on it.

    Conventions of the embedding:
    - a Python [float] is an exact rational ([Q]): no rounding, no
      overflow, no infinity and no NaN; sums and the quotient are the exact
      ones, so equalities between amounts are stated with [==] and hold
      "modulo floating-point rounding";
    - a Python [dict] is an association list in insertion order;
    - an exception is a value of [exn]; code that can raise returns a
      [result], code that also prints or writes files runs in the monad [M];
    - the builtins [float(str)] and the iteration order of a [set] of the
      running interpreter are the two fields of the class [Python]. *)

From Stdlib Require Import List String Ascii Bool Arith ZArith QArith Lia.
From Stdlib Require Import Permutation DecimalString.
Import ListNotations.
Local Close Scope Q_scope.
Local Open Scope string_scope.
Local Open Scope list_scope.

Set Implicit Arguments.

(** ** Exceptions and results *)

(** The exception classes the program can meet; every one of them is a
    subclass of [Exception]. The argument is the text of [str(e)] (for a
    [KeyError], the missing key). *)
Inductive exn : Type :=
| FileNotFoundError (msg : string)
| OSError (msg : string)
| UnicodeDecodeError (msg : string)
| CsvError (msg : string)
| KeyError (key : string)
| ValueError (msg : string)
| TypeError (msg : string)
| ZeroDivisionError (msg : string)
| AttributeError (msg : string).

Definition exn_str (e : exn) : string :=
  match e with
  | FileNotFoundError m | OSError m | UnicodeDecodeError m | CsvError m
  | ValueError m | TypeError m | ZeroDivisionError m | AttributeError m => m
  | KeyError k => "'" ++ k ++ "'"
  end.

Inductive result (A : Type) : Type :=
| Ok (a : A)
| Raise (e : exn).
Arguments Ok {A} a.
Arguments Raise {A} e.

Definition rbind {A B} (r : result A) (k : A -> result B) : result B :=
  match r with
  | Ok a => k a
  | Raise e => Raise e
  end.

Declare Scope result_scope.
Delimit Scope result_scope with result.
Notation "x <- c ;; k" := (rbind c (fun x => k))
  (at level 100, c at next level, right associativity) : result_scope.

(** ** Python dictionaries: association lists in insertion order *)

Module PyDict.
Section Dict.
Variables K V : Type.
Variable eqb : K -> K -> bool.

Definition dict : Type := list (K * V).

Fixpoint get (k : K) (d : dict) : option V :=
  match d with
  | [] => None
  | (k', v) :: d' => if eqb k k' then Some v else get k d'
  end.

(** [d[k] = v]: an existing key keeps its place, a new one goes last. *)
Fixpoint set (k : K) (v : V) (d : dict) : dict :=
  match d with
  | [] => [(k, v)]
  | (k', v') :: d' => if eqb k k' then (k, v) :: d' else (k', v') :: set k v d'
  end.

Definition keys (d : dict) : list K := map fst d.
Definition values (d : dict) : list V := map snd d.
End Dict.
End PyDict.

(** ** Rows of the CSV file *)

(** A value of a [csv.DictReader] row: a field of the line, [None] for a
    field the line is too short for ([restval]), or the list of surplus
    fields stored under the key [None] ([restkey]). *)
Inductive cell : Type :=
| CStr (s : string)
| CNone
| CRest (fields : list string).

(** The key of a row: a column name, or [None] for the surplus fields. *)
Definition key : Type := option string.

Definition key_eqb (a b : key) : bool :=
  match a, b with
  | Some x, Some y => String.eqb x y
  | None, None => true
  | _, _ => false
  end.

Definition row : Type := PyDict.dict key cell.

(** The hashable values of a row, a string or [None], are read as keys:
    [hashable v] is what adding [v] to a [set] stores. *)
Definition hashable (v : cell) : result key :=
  match v with
  | CStr s => Ok (Some s)
  | CNone => Ok None
  | CRest _ => Raise (TypeError "unhashable type: 'list'")
  end.

(** Python's [v == k] between a value of a row and an element of a set. *)
Definition cell_is (v : cell) (k : key) : bool :=
  match v, k with
  | CStr x, Some y => String.eqb x y
  | CNone, None => true
  | _, _ => false
  end.

(** [row[k]] *)
Definition getitem (r : row) (k : string) : result cell :=
  match PyDict.get key_eqb (Some k) r with
  | Some v => Ok v
  | None => Raise (KeyError k)
  end.

(** ** The interpreter *)

(** What the running interpreter fixes and the source does not: the builtin
    [float] on a string ([None] when it raises [ValueError]), and the order
    in which a [set] built by adding the elements of a sequence iterates
    (it depends on the hashes of the elements, which for strings change
    from one process to the next). *)
Class Python : Type :=
  { py_float : string -> option Q;
    set_order : list key -> list key }.

(** A [set] holds every element added, once. *)
Definition set_order_ok (order : list key -> list key) : Prop :=
  forall l, NoDup (order l) /\ forall x, In x (order l) <-> In x l.

(** ** The outside world, and what a run does to it *)

(** What the program reads: [fs_open f] is the outcome of [open(f)], an
    exception or the stream of lines as [csv.reader] splits them, each one
    read successfully (its fields) or not (the exception raised there);
    [now] is [datetime.now().strftime('%Y-%m-%d %H:%M:%S')]; [script_dir]
    is the directory of the script; [logo_exists] is
    [os.path.exists('logo.png')]. *)
Record world : Type :=
  { fs_open : string -> exn + list (exn + list string);
    now : string;
    script_dir : string;
    logo_exists : bool }.

(** One call on the [FPDF] object. *)
Inductive pdf_op : Type :=
| AliasNbPages
| AddPage
| SetFont (family style : string) (size : nat)
| Cell (w h : nat) (txt : string) (border ln : nat) (align : string)
| Ln (h : option nat)
| Image (name : string) (x y w : nat)
| SetY (y : Z).

(** The document [pdf.output] writes: the calls of [PDFReport.header] (made
    at the top of each page), the calls of [PDFReport.footer] as a function
    of the page number, and the calls of the body in order. *)
Record document : Type :=
  { doc_header : list pdf_op;
    doc_footer : nat -> list pdf_op;
    doc_body : list pdf_op }.

(** What a run leaves behind: the lines printed, and the files written
    (the latest first). *)
Record state : Type :=
  { stdout : list string;
    written : list (string * document) }.

Definition initial : state := {| stdout := []; written := [] |}.

(** Code that prints or writes: a state transformer that returns a value or
    raises; what was printed before an exception stays printed. *)
Definition M (A : Type) : Type := state -> result A * state.

Definition ret {A} (a : A) : M A := fun s => (Ok a, s).

Definition bind {A B} (m : M A) (k : A -> M B) : M B :=
  fun s =>
    match m s with
    | (Ok a, s') => k a s'
    | (Raise e, s') => (Raise e, s')
    end.

Definition lift {A} (r : result A) : M A := fun s => (r, s).

Definition print (line : string) : M unit :=
  fun s => (Ok tt, {| stdout := stdout s ++ [line]; written := written s |}).

Definition write_file (name : string) (d : document) : M unit :=
  fun s => (Ok tt, {| stdout := stdout s; written := (name, d) :: written s |}).

(** [try: body except ...: handler] where the handler's clauses catch every
    [Exception]. *)
Definition try_except {A} (body : M A) (handler : exn -> M A) : M A :=
  fun s =>
    match body s with
    | (Ok a, s') => (Ok a, s')
    | (Raise e, s') => handler e s'
    end.

Declare Scope M_scope.
Delimit Scope M_scope with M.
Notation "x <- c ;; k" := (bind c (fun x => k))
  (at level 100, c at next level, right associativity) : M_scope.
Notation "c ;;; k" := (bind c (fun _ => k))
  (at level 100, right associativity) : M_scope.

(** ** [read_data] *)

(** What [csv.DictReader] makes of one line [fields] under the header
    [names]: [dict(zip(names, fields))], then the surplus fields under the
    key [None], or [None] under each name the line is too short for. *)
Definition dict_of_line (names fields : list string) : row :=
  let d := fold_left (fun d kv => PyDict.set key_eqb (Some (fst kv)) (CStr (snd kv)) d)
                     (combine names fields) [] in
  let lf := List.length names in
  let lr := List.length fields in
  if Nat.ltb lf lr then PyDict.set key_eqb None (CRest (skipn lf fields)) d
  else if Nat.ltb lr lf then
    fold_left (fun d k => PyDict.set key_eqb (Some k) CNone d) (skipn lr names) d
  else d.

(** The rows [csv.DictReader] yields after the header: empty lines are
    skipped, and the first line that cannot be read raises. *)
Fixpoint dict_rows (names : list string) (stream : list (exn + list string))
  : result (list row) :=
  match stream with
  | [] => Ok []
  | inl e :: _ => Raise e
  | inr [] :: rest => dict_rows names rest
  | inr fields :: rest =>
      (ds <- dict_rows names rest ;; Ok (dict_of_line names fields :: ds))%result
  end.

(** [for row in csv.DictReader(file): data.append(row)]: the first line is
    the header; a file with no line yields nothing. *)
Definition dict_reader (stream : list (exn + list string)) : result (list row) :=
  match stream with
  | [] => Ok []
  | inl e :: _ => Raise e
  | inr names :: rest => dict_rows names rest
  end.

Definition open_file (w : world) (filename : string) : M (list (exn + list string)) :=
  match fs_open w filename with
  | inl e => lift (Raise e)
  | inr stream => ret stream
  end.

(** The two [except] clauses of [read_data]. *)
Definition read_failed (filename : string) (e : exn) : M (option (list row)) :=
  match e with
  | FileNotFoundError _ =>
      (print ("Error: The file '" ++ filename ++ "' was not found.") ;;;
       print "Please make sure the file exists in the same directory as the script." ;;;
       ret None)%M
  | _ =>
      (print ("An error occurred while reading the file: " ++ exn_str e) ;;;
       ret None)%M
  end.

Definition read_data (w : world) (filename : string) : M (option (list row)) :=
  try_except
    (stream <- open_file w filename ;;
     data <- lift (dict_reader stream) ;;
     ret (Some data))%M
    (read_failed filename).

(** ** [analyze_data] *)

(** The dictionary [analysis]: each of its five keys is absent or holds a
    value of its type; [{}] has none. *)
Record analysis : Type :=
  { total_sales : option Q;
    average_sale : option Q;
    sales_by_region : option (PyDict.dict key Q);
    sales_by_product : option (PyDict.dict key Q);
    record_count : option nat }.

Definition empty_analysis : analysis :=
  {| total_sales := None; average_sale := None; sales_by_region := None;
     sales_by_product := None; record_count := None |}.

(** [bool(data)] for [data] a list or [None]. *)
Definition truthy_list {A} (data : option (list A)) : bool :=
  match data with
  | Some (_ :: _) => true
  | _ => false
  end.

(** The list behind a value that is not [None]. *)
Definition items {A} (data : option (list A)) : list A :=
  match data with
  | Some l => l
  | None => []
  end.

(** [bool(analysis)] for [analysis] a dictionary or [None]. *)
Definition truthy_analysis (a : option analysis) : bool :=
  match a with
  | None => false
  | Some a =>
      match total_sales a, average_sale a, sales_by_region a,
            sales_by_product a, record_count a with
      | None, None, None, None, None => false
      | _, _, _, _, _ => true
      end
  end.

(** The dictionary behind a value that is not [None]. *)
Definition entries (a : option analysis) : analysis :=
  match a with
  | Some a => a
  | None => empty_analysis
  end.

(** [sum(gen)] over the items of a list, where the generator yields a number
    for an item, skips it, or raises. *)
Fixpoint py_sum {A} (gen : A -> result (option Q)) (items : list A) (acc : Q)
  : result Q :=
  match items with
  | [] => Ok acc
  | item :: rest =>
      match gen item with
      | Raise e => Raise e
      | Ok None => py_sum gen rest acc
      | Ok (Some q) => py_sum gen rest (acc + q)%Q
      end
  end.

(** [total / n] for a float and an int. *)
Definition divide (total : Q) (n : nat) : result Q :=
  match n with
  | O => Raise (ZeroDivisionError "float division by zero")
  | S _ => Ok (total / inject_Z (Z.of_nat n))%Q
  end.

Section Analysis.
Context {py : Python}.

(** [float(v)] *)
Definition float (v : cell) : result Q :=
  match v with
  | CStr s =>
      match py_float s with
      | Some q => Ok q
      | None => Raise (ValueError ("could not convert string to float: '" ++ s ++ "'"))
      end
  | CNone =>
      Raise (TypeError "float() argument must be a string or a real number, not 'NoneType'")
  | CRest _ =>
      Raise (TypeError "float() argument must be a string or a real number, not 'list'")
  end.

(** [float(item['Amount'])] *)
Definition amount (item : row) : result Q :=
  (v <- getitem item "Amount" ;; float v)%result.

(** The generator [float(item['Amount']) for item in data]. *)
Definition each_amount (item : row) : result (option Q) :=
  (q <- amount item ;; Ok (Some q))%result.

(** The generator
    [float(item['Amount']) for item in data if item[field] == value]. *)
Definition amount_where (field : string) (value : key) (item : row)
  : result (option Q) :=
  (v <- getitem item field ;;
   if cell_is v value then each_amount item else Ok None)%result.

(** The elements [set(item[field] for item in data)] adds, in order. *)
Fixpoint set_elements (field : string) (data : list row) : result (list key) :=
  match data with
  | [] => Ok []
  | item :: rest =>
      (v <- getitem item field ;;
       k <- hashable v ;;
       ks <- set_elements field rest ;;
       Ok (k :: ks))%result
  end.

(** [set(item[field] for item in data)], as the list a [for] loop over it
    goes through. *)
Definition py_set (field : string) (data : list row) : result (list key) :=
  (ks <- set_elements field data ;; Ok (set_order ks))%result.

(** [for value in values: d[value] = sum(... if item[field] == value)] *)
Fixpoint sales_by (field : string) (data : list row) (values : list key)
                  (d : PyDict.dict key Q) : result (PyDict.dict key Q) :=
  match values with
  | [] => Ok d
  | value :: rest =>
      (s <- py_sum (amount_where field value) data 0%Q ;;
       sales_by field data rest (PyDict.set key_eqb value s d))%result
  end.

Definition analyze_data (data : option (list row)) : result (option analysis) :=
  if negb (truthy_list data) then Ok None
  else
    let data := items data in
    (total <- py_sum each_amount data 0%Q ;;
     average <- divide total (List.length data) ;;
     regions <- py_set "Region" data ;;
     products <- py_set "Product" data ;;
     by_region <- sales_by "Region" data regions [] ;;
     by_product <- sales_by "Product" data products [] ;;
     Ok (Some {| total_sales := Some total;
                 average_sale := Some average;
                 sales_by_region := Some by_region;
                 sales_by_product := Some by_product;
                 record_count := Some (List.length data) |}))%result.
End Analysis.

(** ** Formatting *)

(** [str(n)] for a non-negative int. *)
Definition str_nat (n : nat) : string := NilZero.string_of_uint (Nat.to_uint n).

(** The integer nearest to [q], a tie going to the even one. *)
Definition round_half_even (q : Q) : Z :=
  let d := Zpos (Qden q) in
  let fl := (Qnum q / d)%Z in
  let r := (Qnum q mod d)%Z in
  match (2 * r ?= d)%Z with
  | Lt => fl
  | Gt => (fl + 1)%Z
  | Eq => if Z.even fl then fl else (fl + 1)%Z
  end.

(** A comma before every group of three digits, on the digits in reverse;
    [k] digits may still follow before the next comma. *)
Fixpoint commas (rev_digits : list ascii) (k : nat) : list ascii :=
  match rev_digits with
  | [] => []
  | c :: rest =>
      match k with
      | O => ","%char :: c :: commas rest 2
      | S k' => c :: commas rest k'
      end
  end.

Definition thousands (n : nat) : string :=
  string_of_list_ascii
    (rev (commas (rev (list_ascii_of_string (str_nat n))) 3)).

Definition two_digits (n : nat) : string :=
  if Nat.ltb n 10 then "0" ++ str_nat n else str_nat n.

(** [format(q, ',.2f')] *)
Definition format_money (q : Q) : string :=
  let cents := Z.to_nat (Z.abs (round_half_even (q * 100)%Q)) in
  (if (Qnum q <? 0)%Z then "-" else "")
  ++ thousands (cents / 100) ++ "." ++ two_digits (cents mod 100).

(** [f"{k}"] for a key of a sales dictionary. *)
Definition str_key (k : key) : string :=
  match k with
  | Some s => s
  | None => "None"
  end.

(** ** [PDFReport] *)

Definition header (w : world) : list pdf_op :=
  (if logo_exists w then [Image "logo.png" 10 8 25] else [])
  ++ [SetFont "Arial" "B" 15;
      Cell 80 0 "" 0 0 "";
      Cell 30 10 "Sales Data Analysis Report" 0 0 "C";
      Ln (Some 20)].

Definition footer (page_no : nat) : list pdf_op :=
  [SetY (-15);
   SetFont "Arial" "I" 8;
   Cell 0 10 ("Page " ++ str_nat page_no ++ "/{nb}") 0 0 "C"].

(** ** [generate_report] *)

(** [analysis[name]] *)
Definition lookup {A} (field : option A) (name : string) : result A :=
  match field with
  | Some v => Ok v
  | None => Raise (KeyError name)
  end.

(** The text [pdf.cell] is given when the argument is a value of a row:
    [FPDF.cell] works on a [str]; on anything else it fails with an
    [AttributeError] (the wording of its message is the library's). *)
Definition cell_text (v : cell) : result string :=
  match v with
  | CStr s => Ok s
  | CNone => Raise (AttributeError "'NoneType' object has no attribute 'replace'")
  | CRest _ => Raise (AttributeError "'list' object has no attribute 'replace'")
  end.

(** [pdf.cell(0, 10, text, 0, 1)] *)
Definition line (text : string) : pdf_op := Cell 0 10 text 0 1 "".

(** [pdf.cell(40, 10, text, 1)] *)
Definition boxed (text : string) : pdf_op := Cell 40 10 text 1 0 "".

(** The body of a loop [for name, sales in d.items(): pdf.cell(...)]. *)
Definition sales_line (entry : key * Q) : pdf_op :=
  line (str_key (fst entry) ++ ": $" ++ format_money (snd entry)).

Definition report_opening (w : world) : list pdf_op :=
  [AliasNbPages; AddPage; SetFont "Arial" "" 12;
   line ("Report generated on: " ++ now w);
   Ln (Some 10);
   SetFont "Arial" "B" 14; line "Summary Statistics"; SetFont "Arial" "" 12].

Definition summary_block (a : analysis) : result (list pdf_op) :=
  (n <- lookup (record_count a) "record_count" ;;
   total <- lookup (total_sales a) "total_sales" ;;
   average <- lookup (average_sale a) "average_sale" ;;
   Ok [line ("Total records analyzed: " ++ str_nat n);
       line ("Total sales: $" ++ format_money total);
       line ("Average sale amount: $" ++ format_money average);
       Ln (Some 10)])%result.

Definition region_heading : list pdf_op :=
  [SetFont "Arial" "B" 14; line "Sales by Region"; SetFont "Arial" "" 12].

Definition product_heading : list pdf_op :=
  [SetFont "Arial" "B" 14; line "Sales by Product"; SetFont "Arial" "" 12].

Definition table_heading : list pdf_op :=
  [SetFont "Arial" "B" 14; line "Sample Data (First 10 Records)";
   SetFont "Arial" "B" 10;
   boxed "Date"; boxed "Region"; boxed "Product"; boxed "Amount"; Ln None;
   SetFont "Arial" "" 10].

Section Report.
Context {py : Python}.

(** The body of the loop [for row in data[:10]]. *)
Definition table_row (r : row) : result (list pdf_op) :=
  (d <- getitem r "Date" ;; d <- cell_text d ;;
   g <- getitem r "Region" ;; g <- cell_text g ;;
   p <- getitem r "Product" ;; p <- cell_text p ;;
   q <- amount r ;;
   Ok [boxed d; boxed g; boxed p; boxed ("$" ++ format_money q); Ln None])%result.

Fixpoint table_rows (rows : list row) : result (list pdf_op) :=
  match rows with
  | [] => Ok []
  | r :: rest =>
      (ops <- table_row r ;; more <- table_rows rest ;; Ok (ops ++ more))%result
  end.

(** The calls on [pdf] from [pdf = PDFReport()] to the last row of the
    table, in order. *)
Definition report_body (w : world) (data : list row) (a : analysis)
  : result (list pdf_op) :=
  (summary <- summary_block a ;;
   by_region <- lookup (sales_by_region a) "sales_by_region" ;;
   by_product <- lookup (sales_by_product a) "sales_by_product" ;;
   table <- table_rows (firstn 10 data) ;;
   Ok (report_opening w ++ summary
       ++ region_heading ++ map sales_line by_region ++ [Ln (Some 10)]
       ++ product_heading ++ map sales_line by_product ++ [Ln (Some 10)]
       ++ table_heading ++ table))%result.

(** The document the calls make: [header] and [footer] are the methods of
    [PDFReport]. *)
Definition report_document (w : world) (body : list pdf_op) : document :=
  {| doc_header := header w; doc_footer := footer; doc_body := body |}.

Definition generate_report (w : world) (data : option (list row))
           (a : option analysis) (output_filename : string) : M bool :=
  if negb (truthy_list data) || negb (truthy_analysis a) then
    (print "Cannot generate report without valid data and analysis." ;;;
     ret false)%M
  else
    (body <- lift (report_body w (items data) (entries a)) ;;
     write_file output_filename (report_document w body) ;;;
     ret true)%M.

(** ** [main] *)

Definition input_file : string := "sales_data.csv".
Definition output_file : string := "sales_report.pdf".

Fixpoint ends_with_slash (s : string) : bool :=
  match s with
  | EmptyString => false
  | String c EmptyString => Ascii.eqb c "/"%char
  | String _ rest => ends_with_slash rest
  end.

(** [os.path.join(dir, name)] for a [name] that is not absolute. *)
Definition path_join (dir name : string) : string :=
  match dir with
  | EmptyString => name
  | _ => if ends_with_slash dir then dir ++ name else dir ++ "/" ++ name
  end.

Definition input_path (w : world) : string := path_join (script_dir w) input_file.

Definition main (w : world) : M unit :=
  (print "Reading data..." ;;;
   data <- read_data w (input_path w) ;;
   if negb (truthy_list data) then ret tt
   else
     print "Analyzing data..." ;;;
     a <- lift (analyze_data data) ;;
     if negb (truthy_analysis a) then print "Error in data analysis." ;;; ret tt
     else
       print "Generating report..." ;;;
       ok <- generate_report w data a output_file ;;
       if ok : bool
       then print ("Report generated successfully: " ++ output_file)
       else print "Failed to generate report.")%M.
End Report.

(** ** A concrete interpreter *)

(** The decimal fragment of [float(str)]: an optional sign, digits, and an
    optional point followed by digits, at least one digit in all. *)
Module DecimalFloat.
Definition digit_of (c : ascii) : option Z :=
  let n := nat_of_ascii c in
  if Nat.leb 48 n && Nat.leb n 57 then Some (Z.of_nat (n - 48)) else None.

(** The value and the number of the leading digits of [l], and what follows
    them. *)
Fixpoint read_digits (l : list ascii) (acc : Z) (n : nat) : Z * nat * list ascii :=
  match l with
  | [] => (acc, n, [])
  | c :: rest =>
      match digit_of c with
      | Some d => read_digits rest (10 * acc + d)%Z (S n)
      | None => (acc, n, l)
      end
  end.

Definition unsigned (l : list ascii) : option Q :=
  let '(i, ni, rest) := read_digits l 0%Z 0 in
  match rest with
  | [] => if Nat.eqb ni 0 then None else Some (inject_Z i)
  | c :: rest' =>
      if Ascii.eqb c "."%char then
        let '(f, nf, rest'') := read_digits rest' 0%Z 0 in
        match rest'' with
        | [] =>
            if Nat.eqb (ni + nf) 0 then None
            else Some (Qred (Qmake (i * 10 ^ Z.of_nat nf + f) (Pos.pow 10 (Pos.of_nat nf))))
        | _ :: _ => None
        end
      else None
  end.

Definition float_of_string (s : string) : option Q :=
  match list_ascii_of_string s with
  | c :: rest =>
      if Ascii.eqb c "-"%char then option_map Qopp (unsigned rest)
      else if Ascii.eqb c "+"%char then unsigned rest
      else unsigned (c :: rest)
  | [] => None
  end.
End DecimalFloat.

(** Adding an element to a set that remembers the order of arrival. *)
Definition set_add (seen : list key) (k : key) : list key :=
  if existsb (key_eqb k) seen then seen else seen ++ [k].

(** A set that iterates in the order its elements were first added. *)
Definition first_seen (l : list key) : list key := fold_left set_add l [].

(** A set that iterates in the reverse of that order. *)
Definition last_seen (l : list key) : list key := rev (first_seen l).

Definition python_first_seen : Python :=
  {| py_float := DecimalFloat.float_of_string; set_order := first_seen |}.

Definition python_last_seen : Python :=
  {| py_float := DecimalFloat.float_of_string; set_order := last_seen |}.

(** ** [analyze_data] on the heap *)

(** The same function with its objects in a heap: [data] is a reference to
    a list of references to row dictionaries, and [analysis],
    [sales_by_region] and [sales_by_product] are dictionaries the call
    allocates and fills by assignments to their keys. Numbers, strings and
    [None] are immutable and stay values. *)
Module Heap.
Definition loc : Type := nat.

(** The dictionary [analysis]: the values of the two sales keys are
    references to dictionaries. *)
Record analysis_ref : Type :=
  { ref_total_sales : option Q;
    ref_average_sale : option Q;
    ref_sales_by_region : option loc;
    ref_sales_by_product : option loc;
    ref_record_count : option nat }.

Definition empty_ref : analysis_ref :=
  {| ref_total_sales := None; ref_average_sale := None;
     ref_sales_by_region := None; ref_sales_by_product := None;
     ref_record_count := None |}.

Inductive object : Type :=
| OList (elements : list loc)
| ORow (r : row)
| OSales (d : PyDict.dict key Q)
| OAnalysis (a : analysis_ref).

Definition heap : Type := list object.

Definition H (A : Type) : Type := heap -> result A * heap.

Definition hret {A} (a : A) : H A := fun h => (Ok a, h).

Definition hbind {A B} (m : H A) (k : A -> H B) : H B :=
  fun h =>
    match m h with
    | (Ok a, h') => k a h'
    | (Raise e, h') => (Raise e, h')
    end.

Definition hlift {A} (r : result A) : H A := fun h => (r, h).

Declare Scope heap_scope.
Delimit Scope heap_scope with heap.
Notation "x <- c ;; k" := (hbind c (fun x => k))
  (at level 100, c at next level, right associativity) : heap_scope.
Notation "c ;;; k" := (hbind c (fun _ => k))
  (at level 100, right associativity) : heap_scope.

(** A new object goes after the ones there are. *)
Definition alloc (o : object) : H loc :=
  fun h => (Ok (List.length h), h ++ [o]).

Fixpoint update (l : loc) (o : object) (h : heap) : heap :=
  match h, l with
  | [], _ => []
  | _ :: rest, O => o :: rest
  | x :: rest, S l' => x :: update l' o rest
  end.

Definition store (l : loc) (o : object) : H unit :=
  fun h => (Ok tt, update l o h).

(** The loads fail on an object of another kind: the model covers the
    heaps in which [data] is a list of row dictionaries. *)
Definition load_list (l : loc) : H (list loc) :=
  fun h =>
    match nth_error h l with
    | Some (OList elements) => (Ok elements, h)
    | _ => (Raise (TypeError "not a list"), h)
    end.

Definition load_row (l : loc) : H row :=
  fun h =>
    match nth_error h l with
    | Some (ORow r) => (Ok r, h)
    | _ => (Raise (TypeError "not a row"), h)
    end.

Definition load_sales (l : loc) : H (PyDict.dict key Q) :=
  fun h =>
    match nth_error h l with
    | Some (OSales d) => (Ok d, h)
    | _ => (Raise (TypeError "not a dict"), h)
    end.

Definition load_analysis (l : loc) : H analysis_ref :=
  fun h =>
    match nth_error h l with
    | Some (OAnalysis a) => (Ok a, h)
    | _ => (Raise (TypeError "not a dict"), h)
    end.

(** [d[k] = v] on a sales dictionary. *)
Definition setitem_sales (d : loc) (k : key) (v : Q) : H unit :=
  (old <- load_sales d ;; store d (OSales (PyDict.set key_eqb k v old)))%heap.

(** [analysis[name] = v], one function per key: [update a] is [a] with
    the key set. *)
Definition setitem_analysis (a : loc) (update : analysis_ref -> analysis_ref)
  : H unit :=
  (old <- load_analysis a ;; store a (OAnalysis (update old)))%heap.

Definition with_total_sales (v : Q) (a : analysis_ref) : analysis_ref :=
  {| ref_total_sales := Some v; ref_average_sale := ref_average_sale a;
     ref_sales_by_region := ref_sales_by_region a;
     ref_sales_by_product := ref_sales_by_product a;
     ref_record_count := ref_record_count a |}.

Definition with_average_sale (v : Q) (a : analysis_ref) : analysis_ref :=
  {| ref_total_sales := ref_total_sales a; ref_average_sale := Some v;
     ref_sales_by_region := ref_sales_by_region a;
     ref_sales_by_product := ref_sales_by_product a;
     ref_record_count := ref_record_count a |}.

Definition with_sales_by_region (v : loc) (a : analysis_ref) : analysis_ref :=
  {| ref_total_sales := ref_total_sales a; ref_average_sale := ref_average_sale a;
     ref_sales_by_region := Some v;
     ref_sales_by_product := ref_sales_by_product a;
     ref_record_count := ref_record_count a |}.

Definition with_sales_by_product (v : loc) (a : analysis_ref) : analysis_ref :=
  {| ref_total_sales := ref_total_sales a; ref_average_sale := ref_average_sale a;
     ref_sales_by_region := ref_sales_by_region a;
     ref_sales_by_product := Some v;
     ref_record_count := ref_record_count a |}.

Definition with_record_count (v : nat) (a : analysis_ref) : analysis_ref :=
  {| ref_total_sales := ref_total_sales a; ref_average_sale := ref_average_sale a;
     ref_sales_by_region := ref_sales_by_region a;
     ref_sales_by_product := ref_sales_by_product a;
     ref_record_count := Some v |}.

Section OnHeap.
Context {py : Python}.

(** [sum(gen)] where the generator walks the rows behind [elements]. *)
Fixpoint sum_rows (gen : row -> result (option Q)) (elements : list loc) (acc : Q)
  : H Q :=
  match elements with
  | [] => hret acc
  | l :: rest =>
      (r <- load_row l ;;
       y <- hlift (gen r) ;;
       match y with
       | None => sum_rows gen rest acc
       | Some q => sum_rows gen rest (acc + q)%Q
       end)%heap
  end.

(** [sum(... for item in data ...)] *)
Definition sum_over (gen : row -> result (option Q)) (data : loc) : H Q :=
  (elements <- load_list data ;; sum_rows gen elements 0%Q)%heap.

Fixpoint set_rows (field : string) (elements : list loc) : H (list key) :=
  match elements with
  | [] => hret []
  | l :: rest =>
      (r <- load_row l ;;
       v <- hlift (getitem r field) ;;
       k <- hlift (hashable v) ;;
       ks <- set_rows field rest ;;
       hret (k :: ks))%heap
  end.

(** [set(item[field] for item in data)] *)
Definition set_over (field : string) (data : loc) : H (list key) :=
  (elements <- load_list data ;;
   ks <- set_rows field elements ;;
   hret (set_order ks))%heap.

(** [for value in values: d[value] = sum(... if item[field] == value)] *)
Fixpoint fill (field : string) (data : loc) (values : list key) (d : loc)
  : H unit :=
  match values with
  | [] => hret tt
  | value :: rest =>
      (s <- sum_over (amount_where field value) data ;;
       setitem_sales d value s ;;;
       fill field data rest d)%heap
  end.

(** [len(data)] *)
Definition len (data : loc) : H nat :=
  (elements <- load_list data ;; hret (List.length elements))%heap.

Definition analyze_data (data : option loc) : H (option loc) :=
  match data with
  | None => hret None
  | Some data =>
      (n <- len data ;;
       match n with
       | O => hret None
       | S _ =>
           analysis <- alloc (OAnalysis empty_ref) ;;
           total_sales <- sum_over each_amount data ;;
           n <- len data ;;
           average_sale <- hlift (divide total_sales n) ;;
           regions <- set_over "Region" data ;;
           products <- set_over "Product" data ;;
           sales_by_region <- alloc (OSales []) ;;
           fill "Region" data regions sales_by_region ;;;
           sales_by_product <- alloc (OSales []) ;;
           fill "Product" data products sales_by_product ;;;
           setitem_analysis analysis (with_total_sales total_sales) ;;;
           setitem_analysis analysis (with_average_sale average_sale) ;;;
           setitem_analysis analysis (with_sales_by_region sales_by_region) ;;;
           setitem_analysis analysis (with_sales_by_product sales_by_product) ;;;
           n <- len data ;;
           setitem_analysis analysis (with_record_count n) ;;;
           hret (Some analysis)
       end)%heap
  end.
End OnHeap.

(** [h'] is [h] followed by new objects: every object of [h] is where it
    was and as it was. *)
Definition extends (h h' : heap) : Prop := exists fresh, h' = h ++ fresh.

(** Run from any heap that extends [h0], [m] leaves a heap that extends
    [h0], and a value it returns satisfies [post]. *)
Definition keeps (h0 : heap) {A} (m : H A) (post : A -> Prop) : Prop :=
  forall h, extends h0 h ->
    extends h0 (snd (m h)) /\
    match fst (m h) with
    | Ok a => post a
    | Raise _ => True
    end.

(** The rows [data] refers to in [h]. *)
Definition holds (h : heap) (data : loc) (rows : list row) : Prop :=
  exists elements,
    nth_error h data = Some (OList elements) /\
    Forall2 (fun l r => nth_error h l = Some (ORow r)) elements rows.

(** The dictionary at [l] in [h], with the sales dictionaries it refers
    to read in. *)
Definition reads (h : heap) (l : loc) (a : analysis) : Prop :=
  exists ar region product,
    nth_error h l = Some (OAnalysis ar) /\
    ref_sales_by_region ar = Some region /\
    ref_sales_by_product ar = Some product /\
    total_sales a = ref_total_sales ar /\
    average_sale a = ref_average_sale ar /\
    record_count a = ref_record_count ar /\
    option_map OSales (sales_by_region a) = nth_error h region /\
    option_map OSales (sales_by_product a) = nth_error h product.
End Heap.

(** ** The notions the properties are stated with *)

(** [sum(l)] for a list of floats. *)
Definition py_total (l : list Q) : Q := fold_left Qplus l 0%Q.

(** [sum(d.values())] *)
Definition sum_values (d : PyDict.dict key Q) : Q := py_total (PyDict.values d).

(** The element [item[field]] adds to a set. *)
Definition key_of (field : string) (item : row) : result key :=
  (v <- getitem item field ;; hashable v)%result.

(** The amounts of the entries of [entries] filed under [value]. *)
Definition bucket (entries : list (key * Q)) (value : key) : list Q :=
  map snd (filter (fun e => key_eqb (fst e) value) entries).

Definition is_text (v : result cell) : bool :=
  match v with
  | Ok (CStr _) => true
  | _ => false
  end.

Definition is_ok {A} (v : result A) : bool :=
  match v with
  | Ok _ => true
  | Raise _ => false
  end.

(** The dictionary the loop over [values] builds from the entries: under each
    value, the total of its bucket. *)
Definition filed (entries : list (key * Q)) (values : list key) : PyDict.dict key Q :=
  fold_left (fun d v => PyDict.set key_eqb v (py_total (bucket entries v)) d) values [].

(** The state after printing [lines]. *)
Definition printed (s : state) (lines : list string) : state :=
  {| stdout := stdout s ++ lines; written := written s |}.

(** The lines [read_data] prints when it catches [e]. *)
Definition diagnostic (filename : string) (e : exn) : list string :=
  match e with
  | FileNotFoundError _ =>
      [("Error: The file '" ++ filename ++ "' was not found.")%string;
       "Please make sure the file exists in the same directory as the script."]
  | _ => [("An error occurred while reading the file: " ++ exn_str e)%string]
  end.

(** What opening and reading the file comes to: the rows, or the exception
    raised on the way. *)
Definition load (w : world) (filename : string) : result (list row) :=
  match fs_open w filename with
  | inl e => Raise e
  | inr stream => dict_reader stream
  end.

(** A row that is a Record: it has the four fields as text, and its
    [Amount] is a number. *)
Definition is_record {py : Python} (r : row) : bool :=
  is_text (getitem r "Date") && is_text (getitem r "Region")
  && is_text (getitem r "Product") && is_text (getitem r "Amount")
  && is_ok (amount r).



(** Two sales dictionaries with the same entries, in any order. *)
Definition same_entries (d1 d2 : PyDict.dict key Q) : Prop := Permutation d1 d2.

(** Two written files that differ at most in the order of the lines inside
    the region block and inside the product block. *)
Definition same_report (w : world) (f1 f2 : string * document) : Prop :=
  fst f1 = fst f2 /\
  doc_header (snd f1) = doc_header (snd f2) /\
  doc_footer (snd f1) = doc_footer (snd f2) /\
  exists summary table by_region1 by_region2 by_product1 by_product2,
    same_entries by_region1 by_region2 /\
    same_entries by_product1 by_product2 /\
    doc_body (snd f1) =
      report_opening w ++ summary
      ++ region_heading ++ map sales_line by_region1 ++ [Ln (Some 10)]
      ++ product_heading ++ map sales_line by_product1 ++ [Ln (Some 10)]
      ++ table_heading ++ table /\
    doc_body (snd f2) =
      report_opening w ++ summary
      ++ region_heading ++ map sales_line by_region2 ++ [Ln (Some 10)]
      ++ product_heading ++ map sales_line by_product2 ++ [Ln (Some 10)]
      ++ table_heading ++ table.

(** [k] is the [field] of a row of [data]. *)
Definition has_key (field : string) (data : list row) (k : key) : Prop :=
  exists r, In r data /\ key_of field r = Ok k.

(** The amounts of the rows of [data] whose [field] is [value], in the
    order of the rows. *)
Definition amounts_in {py : Python} (field : string) (value : key) (data : list row)
  : list Q :=
  flat_map (fun r =>
              match key_of field r, amount r with
              | Ok k, Ok q => if key_eqb k value then [q] else []
              | _, _ => []
              end) data.

(** The exceptions that come from the content of the rows: a column that
    is not there, a value that is no number, a value of the wrong type. *)
Definition data_error (e : exn) : Prop :=
  e = KeyError "Amount" \/ e = KeyError "Region" \/ e = KeyError "Product" \/
  (exists msg, e = ValueError msg) \/ (exists msg, e = TypeError msg).

(** Two rows with the same [Region], [Product] and [Amount], present or
    not. *)
Definition same_sales_fields (r r' : row) : Prop :=
  getitem r "Region" = getitem r' "Region" /\
  getitem r "Product" = getitem r' "Product" /\
  getitem r "Amount" = getitem r' "Amount".

(** A row [analyze_data] can read: its [Region] and [Product] are strings or
    [None], its [Amount] is a number. *)
Definition is_sale {py : Python} (r : row) : bool :=
  is_ok (key_of "Region" r) && is_ok (key_of "Product" r) && is_ok (amount r).


(** ** Sample inputs *)

Module Sample.
Definition names : list string := ["Date"; "Region"; "Product"; "Amount"].

(** The example of the specification. *)
Definition two_lines : list (list string) :=
  [["2024-01-01"; "East"; "Widget"; "100.00"];
   ["2024-01-02"; "West"; "Gadget"; "50.00"]].

Definition fifteen_lines : list (list string) :=
  [["2024-01-01"; "East"; "Widget"; "100.00"];
   ["2024-01-02"; "West"; "Gadget"; "50.00"];
   ["2024-01-03"; "North"; "Widget"; "1250.50"];
   ["2024-01-04"; "South"; "Gizmo"; "75.25"];
   ["2024-01-05"; "East"; "Gadget"; "300.00"];
   ["2024-01-06"; "West"; "Widget"; "20.00"];
   ["2024-01-07"; "North"; "Gizmo"; "999.99"];
   ["2024-01-08"; "South"; "Widget"; "10.10"];
   ["2024-01-09"; "East"; "Gizmo"; "64.00"];
   ["2024-01-10"; "West"; "Gadget"; "8.75"];
   ["2024-01-11"; "North"; "Widget"; "120.00"];
   ["2024-01-12"; "South"; "Gadget"; "45.00"];
   ["2024-01-13"; "East"; "Widget"; "310.40"];
   ["2024-01-14"; "West"; "Gizmo"; "5.00"];
   ["2024-01-15"; "North"; "Gadget"; "77.70"]].

(** A file whose second line has an [Amount] that is no number. *)
Definition bad_amount_lines : list (list string) :=
  [["2024-01-01"; "East"; "Widget"; "100.00"];
   ["2024-01-02"; "West"; "Gadget"; "abc"]].

Definition file_of (lines : list (list string)) : list (exn + list string) :=
  map inr (names :: lines).

Definition rows_of (lines : list (list string)) : list row :=
  map (dict_of_line names) lines.

(** The script in [/app], with [stream] as its [sales_data.csv] and no
    other file. *)
Definition world_of (content : exn + list (exn + list string)) : world :=
  {| fs_open := fun f =>
       if String.eqb f "/app/sales_data.csv" then content
       else inl (FileNotFoundError ("[Errno 2] No such file or directory: '" ++ f ++ "'"));
     now := "2024-02-01 09:30:00";
     script_dir := "/app";
     logo_exists := false |}.

Definition two_records : world := world_of (inr (file_of two_lines)).
Definition fifteen_records : world := world_of (inr (file_of fifteen_lines)).
Definition header_only : world := world_of (inr (file_of [])).
Definition bad_amount : world := world_of (inr (file_of bad_amount_lines)).
Definition no_file : world :=
  world_of (inl (FileNotFoundError
                   "[Errno 2] No such file or directory: '/app/sales_data.csv'")).

(** A heap with the two records of the example: the rows, then the list. *)
Definition heap : Heap.heap :=
  map Heap.ORow (rows_of two_lines) ++ [Heap.OList [0; 1]].

(** The analysis of the example of the specification. *)
Definition analysis_of_two : analysis :=
  {| total_sales := Some (150 # 1)%Q;
     average_sale := Some (150 # 2)%Q;
     sales_by_region := Some [(Some "East", (100 # 1)%Q); (Some "West", (50 # 1)%Q)];
     sales_by_product := Some [(Some "Widget", (100 # 1)%Q); (Some "Gadget", (50 # 1)%Q)];
     record_count := Some 2 |}.


(** The two records of the example with no date and a column more. *)
Definition other_names : list string := ["Region"; "Product"; "Amount"; "Note"].

Definition other_lines : list (list string) :=
  [["East"; "Widget"; "100.00"; "first"];
   ["West"; "Gadget"; "50.00"; "second"]].

Definition two_lines_other_columns : list row :=
  map (dict_of_line other_names) other_lines.

(** A file with that header, which has no [Date]. *)
Definition no_date : world := world_of (inr (map inr (other_names :: other_lines))).

(** A file whose header has no [Amount]. *)
Definition no_amount_names : list string := ["Date"; "Region"; "Product"].

Definition no_amount_lines : list (list string) :=
  [["2024-01-01"; "East"; "Widget"]].

Definition no_amount : world :=
  world_of (inr (map inr (no_amount_names :: no_amount_lines))).

(** A file whose second data line cannot be decoded. *)
Definition broken_stream : list (exn + list string) :=
  [inr names;
   inr ["2024-01-01"; "East"; "Widget"; "100.00"];
   inl (UnicodeDecodeError "'utf-8' codec can't decode byte 0xff")].

Definition broken_line : world := world_of (inr broken_stream).
End Sample.

(** * Properties *)

Unset Implicit Arguments.

(** ** Keys *)

Lemma key_eqb_eq (a b : key) : key_eqb a b = true <-> a = b.
Proof.
  destruct a as [x|], b as [y|]; simpl; try (split; congruence).
  rewrite String.eqb_eq. split; congruence.
Qed.

Lemma key_eqb_refl (a : key) : key_eqb a a = true.
Proof. now apply key_eqb_eq. Qed.

Lemma key_eqb_neq (a b : key) : key_eqb a b = false <-> a <> b.
Proof.
  rewrite <- key_eqb_eq. destruct (key_eqb a b); split; congruence.
Qed.

Lemma cell_is_hashable (v : cell) (k value : key) :
  hashable v = Ok k -> cell_is v value = key_eqb k value.
Proof.
  destruct v; simpl; intros E; inversion E; subst; reflexivity.
Qed.

(** ** Sums of rationals *)

Section Sums.
Local Open Scope Q_scope.

Lemma fold_left_Qplus (l : list Q) (acc : Q) :
  fold_left Qplus l acc == acc + py_total l.
Proof.
  unfold py_total. revert acc.
  induction l as [|x l IH]; intros acc; simpl.
  - ring.
  - rewrite (IH (acc + x)), (IH (0 + x)). ring.
Qed.

Lemma py_total_cons (x : Q) (l : list Q) : py_total (x :: l) == x + py_total l.
Proof.
  unfold py_total at 1. simpl. rewrite fold_left_Qplus. ring.
Qed.

Lemma py_total_map_ext {A} (f g : A -> Q) (l : list A) :
  (forall x, In x l -> f x == g x) ->
  py_total (map f l) == py_total (map g l).
Proof.
  induction l as [|x l IH]; intros E; simpl.
  - reflexivity.
  - rewrite !py_total_cons, IH, (E x).
    + reflexivity.
    + now left.
    + intros y Hy. apply E. now right.
Qed.

Lemma py_total_map_plus {A} (f g : A -> Q) (l : list A) :
  py_total (map (fun x => f x + g x) l) == py_total (map f l) + py_total (map g l).
Proof.
  induction l as [|x l IH]; simpl.
  - reflexivity.
  - rewrite !py_total_cons, IH. ring.
Qed.

Lemma py_total_zero {A} (l : list A) : py_total (map (fun _ => 0) l) == 0.
Proof.
  induction l as [|x l IH]; simpl.
  - reflexivity.
  - rewrite py_total_cons, IH. ring.
Qed.

(** An amount filed under [k] is counted once over a list of distinct
    keys that has [k]. *)
Lemma py_total_once (k : key) (q : Q) (l : list key) :
  NoDup l -> In k l ->
  py_total (map (fun v => if key_eqb k v then q else 0) l) == q.
Proof.
  induction 1 as [|v l Hv Hl IH]; intros Hk; simpl in *.
  - contradiction.
  - rewrite py_total_cons.
    destruct (key_eqb k v) eqn:E.
    + apply key_eqb_eq in E. subst v.
      rewrite (py_total_map_ext _ (fun _ => 0)).
      * rewrite py_total_zero. ring.
      * intros x Hx. destruct (key_eqb k x) eqn:E; [|reflexivity].
        apply key_eqb_eq in E. subst x. contradiction.
    + destruct Hk as [->|Hk].
      * now rewrite key_eqb_refl in E.
      * rewrite (IH Hk). ring.
Qed.

(** Every entry is in exactly one bucket: the buckets of a list of
    distinct keys that has every key of the entries add up to the total. *)
Lemma buckets_total (entries : list (key * Q)) (l : list key) :
  NoDup l -> (forall e, In e entries -> In (fst e) l) ->
  py_total (map (fun v => py_total (bucket entries v)) l)
  == py_total (map snd entries).
Proof.
  intros Hl. induction entries as [|[k q] entries IH]; intros Hin.
  - apply py_total_zero.
  - simpl map at 2. rewrite py_total_cons.
    rewrite (py_total_map_ext _
               (fun v => (if key_eqb k v then q else 0) + py_total (bucket entries v))).
    + rewrite py_total_map_plus, IH, py_total_once.
      * reflexivity.
      * assumption.
      * apply (Hin (k, q)). now left.
      * intros e He. apply Hin. now right.
    + intros v _. unfold bucket. simpl.
      destruct (key_eqb k v); simpl.
      * apply py_total_cons.
      * ring.
Qed.
End Sums.

(** ** Dictionaries *)

Lemma set_fresh {V} (k : key) (v : V) (d : PyDict.dict key V) :
  ~ In k (PyDict.keys d) -> PyDict.set key_eqb k v d = d ++ [(k, v)].
Proof.
  induction d as [|[k' v'] d IH]; simpl; intros Hk.
  - reflexivity.
  - destruct (key_eqb k k') eqn:E.
    + apply key_eqb_eq in E. subst. exfalso. apply Hk. now left.
    + rewrite IH; [reflexivity|]. intros H. apply Hk. now right.
Qed.

Lemma fold_set_distinct {V} (f : key -> V) (values : list key) (d : PyDict.dict key V) :
  NoDup values -> (forall v, In v values -> ~ In v (PyDict.keys d)) ->
  fold_left (fun d v => PyDict.set key_eqb v (f v) d) values d
  = d ++ map (fun v => (v, f v)) values.
Proof.
  intros Hnd. revert d.
  induction Hnd as [|v values Hv Hnd IH]; intros d Hd; simpl.
  - now rewrite app_nil_r.
  - rewrite set_fresh by (apply Hd; now left).
    rewrite IH.
    + now rewrite <- app_assoc.
    + intros x Hx. unfold PyDict.keys. rewrite map_app, in_app_iff. simpl.
      intros [H|[H|[]]].
      * apply (Hd x); [now right|exact H].
      * subst x. contradiction.
Qed.

Lemma filed_distinct (entries : list (key * Q)) (values : list key) :
  NoDup values ->
  filed entries values = map (fun v => (v, py_total (bucket entries v))) values.
Proof.
  intros Hnd. unfold filed. rewrite fold_set_distinct; auto.
Qed.

(** ** What [analyze_data] computes *)

Section AnalysisFacts.
Context {py : Python}.

Lemma set_elements_keys (field : string) (data : list row) (ks : list key) :
  set_elements field data = Ok ks <->
  Forall2 (fun r k => key_of field r = Ok k) data ks.
Proof.
  split.
  - revert ks. induction data as [|r data IH]; intros ks; simpl.
    + intros E. inversion E. constructor.
    + destruct (getitem r field) as [v|e] eqn:Ev; simpl; [|discriminate].
      destruct (hashable v) as [k|e] eqn:Ek; simpl; [|discriminate].
      destruct (set_elements field data) as [ks'|e]; simpl; [|discriminate].
      intros E. inversion E. subst ks. constructor.
      * unfold key_of. now rewrite Ev.
      * now apply IH.
  - induction 1 as [|r k data ks Hk _ IH]; simpl.
    + reflexivity.
    + unfold key_of in Hk.
      destruct (getitem r field) as [v|e]; simpl in *; [|discriminate].
      now rewrite Hk, IH.
Qed.

Lemma py_sum_amounts (data : list row) (acc t : Q) :
  py_sum each_amount data acc = Ok t ->
  exists qs, Forall2 (fun r q => amount r = Ok q) data qs /\ t = fold_left Qplus qs acc.
Proof.
  revert acc. induction data as [|r data IH]; intros acc; simpl.
  - intros E. inversion E. exists []. split; [constructor|reflexivity].
  - unfold each_amount at 1. destruct (amount r) as [q|e] eqn:Eq; simpl.
    + intros E. destruct (IH _ E) as (qs & F & ->).
      exists (q :: qs). split; [now constructor|reflexivity].
    + discriminate.
Qed.

Lemma py_sum_of_amounts (data : list row) (qs : list Q) (acc : Q) :
  Forall2 (fun r q => amount r = Ok q) data qs ->
  py_sum each_amount data acc = Ok (fold_left Qplus qs acc).
Proof.
  intros F. revert acc. induction F as [|r q data qs Hq F IH]; intros acc; simpl.
  - reflexivity.
  - unfold each_amount at 1. rewrite Hq. simpl. apply IH.
Qed.

(** The sum of the loop for one value is the total of its bucket. *)
Lemma py_sum_bucket (field : string) (value : key) (data : list row)
      (ks : list key) (qs : list Q) (acc : Q) :
  Forall2 (fun r k => key_of field r = Ok k) data ks ->
  Forall2 (fun r q => amount r = Ok q) data qs ->
  py_sum (amount_where field value) data acc
  = Ok (fold_left Qplus (bucket (combine ks qs) value) acc).
Proof.
  intros Fk. revert qs acc.
  induction Fk as [|r k data ks Hk Fk IH]; intros qs acc Fq.
  - reflexivity.
  - inversion Fq as [|? q ? qs' Hq Fq']; subst. simpl.
    unfold amount_where at 1. unfold key_of in Hk.
    destruct (getitem r field) as [v|e]; simpl in *; [|discriminate].
    rewrite (cell_is_hashable _ _ value Hk).
    unfold bucket. simpl.
    destruct (key_eqb k value); simpl.
    + unfold each_amount. rewrite Hq. simpl. apply IH, Fq'.
    + apply IH, Fq'.
Qed.

Lemma sales_by_filed (field : string) (data : list row) (ks : list key)
      (qs : list Q) (values : list key) (d : PyDict.dict key Q) :
  Forall2 (fun r k => key_of field r = Ok k) data ks ->
  Forall2 (fun r q => amount r = Ok q) data qs ->
  sales_by field data values d
  = Ok (fold_left (fun d v => PyDict.set key_eqb v (py_total (bucket (combine ks qs) v)) d)
                  values d).
Proof.
  intros Fk Fq. revert d. induction values as [|v values IH]; intros d; simpl.
  - reflexivity.
  - rewrite (py_sum_bucket _ v _ _ _ 0%Q Fk Fq). simpl. apply IH.
Qed.

(** The dictionary [analyze_data] returns for rows whose keys and amounts
    can be read. *)
Lemma analyze_data_parsed (data : list row) (regions products : list key)
      (qs : list Q) :
  data <> [] ->
  Forall2 (fun r k => key_of "Region" r = Ok k) data regions ->
  Forall2 (fun r k => key_of "Product" r = Ok k) data products ->
  Forall2 (fun r q => amount r = Ok q) data qs ->
  analyze_data (Some data)
  = Ok (Some {| total_sales := Some (py_total qs);
                average_sale :=
                  Some (py_total qs / inject_Z (Z.of_nat (List.length data)))%Q;
                sales_by_region :=
                  Some (filed (combine regions qs) (set_order regions));
                sales_by_product :=
                  Some (filed (combine products qs) (set_order products));
                record_count := Some (List.length data) |}).
Proof.
  intros Hne Fr Fp Fq.
  destruct data as [|r data]; [congruence|].
  unfold analyze_data. cbn [truthy_list negb items].
  rewrite (py_sum_of_amounts _ _ 0%Q Fq). cbn [rbind].
  cbn [divide List.length].
  unfold py_set.
  apply set_elements_keys in Fr as Er. apply set_elements_keys in Fp as Ep.
  rewrite Er, Ep. cbn [rbind].
  rewrite (sales_by_filed _ _ _ _ _ _ Fr Fq), (sales_by_filed _ _ _ _ _ _ Fp Fq).
  reflexivity.
Qed.

(** A call that returns a dictionary read every key and amount. *)
Lemma analyze_data_returns (data : list row) (a : analysis) :
  analyze_data (Some data) = Ok (Some a) ->
  data <> [] /\
  exists regions products qs,
    Forall2 (fun r k => key_of "Region" r = Ok k) data regions /\
    Forall2 (fun r k => key_of "Product" r = Ok k) data products /\
    Forall2 (fun r q => amount r = Ok q) data qs.
Proof.
  destruct data as [|r data]; [discriminate|].
  unfold analyze_data. cbn [truthy_list negb items].
  destruct (py_sum each_amount (r :: data) 0%Q) as [t|e] eqn:Et; [|discriminate].
  cbn [rbind divide List.length]. unfold py_set.
  destruct (set_elements "Region" (r :: data)) as [regions|e] eqn:Er; [|discriminate].
  cbn [rbind].
  destruct (set_elements "Product" (r :: data)) as [products|e] eqn:Ep; [|discriminate].
  intros _. split; [discriminate|].
  apply py_sum_amounts in Et as (qs & Fq & _).
  exists regions, products, qs.
  repeat split; [now apply set_elements_keys..|exact Fq].
Qed.

(** The keys and amounts of Records can be read. *)
Lemma records_parse (data : list row) :
  Forall (fun r => is_record r = true) data ->
  exists regions products qs,
    Forall2 (fun r k => key_of "Region" r = Ok k) data regions /\
    Forall2 (fun r k => key_of "Product" r = Ok k) data products /\
    Forall2 (fun r q => amount r = Ok q) data qs.
Proof.
  induction 1 as [|r data Hr _ (regions & products & qs & Fr & Fp & Fq)].
  - exists [], [], []. repeat split; constructor.
  - unfold is_record in Hr.
    apply andb_prop in Hr as [Hr Ha]. apply andb_prop in Hr as [Hr _].
    apply andb_prop in Hr as [Hr Hp]. apply andb_prop in Hr as [_ Hg].
    destruct (getitem r "Region") as [[g| |]|] eqn:Eg; try discriminate.
    destruct (getitem r "Product") as [[p| |]|] eqn:Ep; try discriminate.
    destruct (amount r) as [q|] eqn:Eq; try discriminate.
    exists (Some g :: regions), (Some p :: products), (q :: qs).
    repeat split; constructor; auto; unfold key_of.
    + now rewrite Eg.
    + now rewrite Ep.
Qed.
End AnalysisFacts.

(** ** The two concrete sets are sets *)

Lemma set_add_spec (seen : list key) (k : key) :
  NoDup seen ->
  NoDup (set_add seen k) /\ forall x, In x (set_add seen k) <-> In x seen \/ x = k.
Proof.
  intros Hnd. unfold set_add.
  destruct (existsb (key_eqb k) seen) eqn:E.
  - split; [assumption|]. intros x. split; [now left|].
    intros [H| ->]; [assumption|].
    apply existsb_exists in E as (y & Hy & Ey).
    apply key_eqb_eq in Ey. now subst.
  - split.
    + apply NoDup_rev in Hnd. rewrite <- (rev_involutive (seen ++ [k])).
      apply NoDup_rev. rewrite rev_app_distr. simpl. constructor; [|assumption].
      rewrite <- in_rev. intros Hk.
      assert (existsb (key_eqb k) seen = true) as E'.
      { apply existsb_exists. exists k. split; [assumption|apply key_eqb_refl]. }
      congruence.
    + intros x. rewrite in_app_iff. simpl. intuition congruence.
Qed.

Lemma fold_set_add_spec (l seen : list key) :
  NoDup seen ->
  NoDup (fold_left set_add l seen) /\
  forall x, In x (fold_left set_add l seen) <-> In x seen \/ In x l.
Proof.
  revert seen. induction l as [|k l IH]; intros seen Hnd; simpl.
  - split; [assumption|]. intuition.
  - destruct (set_add_spec seen k Hnd) as [Hnd' Hin].
    destruct (IH _ Hnd') as [Hnd'' Hin'].
    split; [assumption|]. intros x. rewrite Hin', Hin. intuition congruence.
Qed.

Lemma first_seen_ok : set_order_ok first_seen.
Proof.
  intros l. unfold first_seen.
  destruct (fold_set_add_spec l [] (NoDup_nil _)) as [Hnd Hin].
  split; [assumption|]. intros x. rewrite Hin. simpl. intuition.
Qed.

Lemma last_seen_ok : set_order_ok last_seen.
Proof.
  intros l. unfold last_seen. destruct (first_seen_ok l) as [Hnd Hin].
  split.
  - now apply NoDup_rev.
  - intros x. now rewrite <- in_rev.
Qed.

(** ** The aggregates *)

Lemma map_snd_combine {A B} (l : list A) (l' : list B) :
  List.length l = List.length l' -> map snd (combine l l') = l'.
Proof.
  revert l'. induction l as [|x l IH]; intros [|y l']; simpl; try discriminate.
  - reflexivity.
  - intros E. f_equal. apply IH. congruence.
Qed.

(** The values of the dictionary built over a set of the keys add up to the
    total of the amounts. *)
Lemma filed_total (order : list key -> list key) (ks : list key) (qs : list Q) :
  set_order_ok order -> List.length ks = List.length qs ->
  (sum_values (filed (combine ks qs) (order ks)) == py_total qs)%Q.
Proof.
  intros Hok Hlen. destruct (Hok ks) as [Hnd Hin].
  rewrite filed_distinct by assumption.
  unfold sum_values, PyDict.values. rewrite map_map. simpl.
  rewrite buckets_total.
  - now rewrite map_snd_combine.
  - assumption.
  - intros [k q] He. apply Hin. simpl. eapply in_combine_l, He.
Qed.

(** Whatever the rows, a dictionary [analyze_data] returns has sales
    dictionaries whose values add up to its [total_sales]. *)
Lemma returned_buckets_add_up {py : Python} (data : list row) (a : analysis) :
  set_order_ok set_order ->
  analyze_data (Some data) = Ok (Some a) ->
  exists total by_region by_product,
    total_sales a = Some total /\
    sales_by_region a = Some by_region /\
    sales_by_product a = Some by_product /\
    (sum_values by_region == total)%Q /\
    (sum_values by_product == total)%Q.
Proof.
  intros Hok Ea.
  destruct (analyze_data_returns data a Ea)
    as (Hne & regions & products & qs & Fr & Fp & Fq).
  rewrite (analyze_data_parsed data regions products qs Hne Fr Fp Fq) in Ea.
  inversion Ea. subst a. eexists _, _, _. repeat split.
  - apply filed_total; [assumption|].
    rewrite <- (Forall2_length Fr). apply (Forall2_length Fq).
  - apply filed_total; [assumption|].
    rewrite <- (Forall2_length Fp). apply (Forall2_length Fq).
Qed.


Lemma sample_rows_are_records :
  Forall (fun r => @is_record python_first_seen r = true)
         (Sample.rows_of Sample.two_lines).
Proof. repeat constructor. Qed.


(** C2. For every non-empty list of records, [analyze_data] returns a
    dictionary whose [total_sales] is the sum of the amounts of the
    records, whose [record_count] is their number, and whose [average_sale]
    is the one divided by the other (the divisor is not zero). The sum and
    the quotient are the exact ones. *)
Theorem total_count_and_average {py : Python} (data : list row) :
  data <> [] ->
  Forall (fun r => is_record r = true) data ->
  exists a amounts,
    analyze_data (Some data) = Ok (Some a) /\
    Forall2 (fun r q => amount r = Ok q) data amounts /\
    total_sales a = Some (py_total amounts) /\
    record_count a = Some (List.length data) /\
    average_sale a
    = Some (py_total amounts / inject_Z (Z.of_nat (List.length data)))%Q /\
    ~ (inject_Z (Z.of_nat (List.length data)) == 0)%Q.
Proof.
  intros Hne Hrec.
  destruct (records_parse data Hrec) as (regions & products & qs & Fr & Fp & Fq).
  eexists _, qs.
  split; [apply (analyze_data_parsed data regions products qs); assumption|].
  repeat split; try assumption.
  unfold Qeq. simpl. destruct data; [congruence|]. simpl. lia.
Qed.

Lemma total_count_and_average_witness :
  exists a amounts,
    @analyze_data python_first_seen (Some (Sample.rows_of Sample.two_lines))
    = Ok (Some a) /\
    Forall2 (fun r q => @amount python_first_seen r = Ok q)
            (Sample.rows_of Sample.two_lines) amounts /\
    total_sales a = Some (py_total amounts) /\
    record_count a = Some 2 /\
    average_sale a = Some (py_total amounts / inject_Z 2)%Q /\
    ~ (inject_Z 2 == 0)%Q.
Proof.
  apply (@total_count_and_average python_first_seen (Sample.rows_of Sample.two_lines)).
  - discriminate.
  - exact sample_rows_are_records.
Defined.

(** The example of the specification: two records, a total of 150, an
    average of 75, 100 for East and 50 for West, 100 for Widget and 50 for
    Gadget. *)
Example analysis_of_the_example :
  @analyze_data python_first_seen (Some (Sample.rows_of Sample.two_lines))
  = Ok (Some {| total_sales := Some (150 # 1)%Q;
                average_sale := Some (150 # 2)%Q;
                sales_by_region := Some [(Some "East", (100 # 1)%Q); (Some "West", (50 # 1)%Q)];
                sales_by_product := Some [(Some "Widget", (100 # 1)%Q); (Some "Gadget", (50 # 1)%Q)];
                record_count := Some 2 |}).
Proof. reflexivity. Qed.

(** ** Runs *)

Lemma printed_nil (s : state) : printed s [] = s.
Proof. destruct s. unfold printed. simpl. now rewrite app_nil_r. Qed.

Lemma printed_printed (s : state) (l1 l2 : list string) :
  printed (printed s l1) l2 = printed s (l1 ++ l2).
Proof. unfold printed. simpl. now rewrite app_assoc. Qed.

Lemma print_run (line : string) (s : state) : print line s = (Ok tt, printed s [line]).
Proof. reflexivity. Qed.

Lemma read_failed_run (filename : string) (e : exn) (s : state) :
  read_failed filename e s = (Ok None, printed s (diagnostic filename e)).
Proof.
  destruct e; unfold read_failed, bind, ret; rewrite ?print_run, ?printed_printed;
    reflexivity.
Qed.

(** [read_data] returns the rows, or prints the diagnostic of the exception
    and returns [None]. *)
Lemma read_data_run (w : world) (filename : string) (s : state) :
  read_data w filename s
  = match load w filename with
    | Ok rows => (Ok (Some rows), s)
    | Raise e => (Ok None, printed s (diagnostic filename e))
    end.
Proof.
  unfold read_data, try_except, bind, open_file, load, lift, ret.
  destruct (fs_open w filename) as [e|stream].
  - apply read_failed_run.
  - destruct (dict_reader stream) as [rows|e].
    + reflexivity.
    + apply read_failed_run.
Qed.

Lemma diagnostic_not_empty (filename : string) (e : exn) : diagnostic filename e <> [].
Proof. destruct e; discriminate. Qed.

(** The rows of a file that can be read are those of its lines that are not
    empty, in the order of the file. *)
Lemma dict_reader_in_order (names : list string) (lines : list (list string)) :
  dict_reader (map inr (names :: lines))
  = Ok (map (dict_of_line names)
            (filter (fun fields => negb (Nat.eqb (List.length fields) 0)) lines)).
Proof.
  simpl. induction lines as [|fields lines IH]; simpl.
  - reflexivity.
  - destruct fields as [|f fields]; simpl.
    + exact IH.
    + now rewrite IH.
Qed.

(** C10. [read_data] never raises: for every file name it returns the rows
    of the file, in the order [csv.DictReader] yields them, with nothing
    printed, or, the exception of [open] or of a line caught, it prints a
    diagnostic and returns [None]. *)
Theorem read_data_never_raises (w : world) (filename : string) (s : state) :
  (exists rows,
     load w filename = Ok rows /\
     read_data w filename s = (Ok (Some rows), s))
  \/
  (exists e,
     load w filename = Raise e /\
     diagnostic filename e <> [] /\
     read_data w filename s = (Ok None, printed s (diagnostic filename e))).
Proof.
  rewrite read_data_run.
  destruct (load w filename) as [rows|e].
  - left. now exists rows.
  - right. exists e. repeat split. apply diagnostic_not_empty.
Qed.

Section Runs.
Context {py : Python}.

(** The document [generate_report] writes for a body. *)
Let report (w : world) (body : list pdf_op) : document :=
  {| doc_header := header w; doc_footer := footer; doc_body := body |}.

Lemma generate_report_run (w : world) (data : option (list row))
      (a : option analysis) (output_filename : string) (s : state) :
  generate_report w data a output_filename s
  = if negb (truthy_list data) || negb (truthy_analysis a) then
      (Ok false,
       printed s ["Cannot generate report without valid data and analysis."])
    else
      match report_body w (items data) (entries a) with
      | Ok body =>
          (Ok true,
           {| stdout := stdout s;
              written := (output_filename, report_document w body) :: written s |})
      | Raise e => (Raise e, s)
      end.
Proof.
  unfold generate_report.
  destruct (negb (truthy_list data) || negb (truthy_analysis a)).
  - reflexivity.
  - unfold bind, lift. destruct (report_body w (items data) (entries a)); reflexivity.
Qed.

(** A dictionary [analyze_data] returns is not empty. *)
Lemma analyze_data_truthy (data : option (list row)) (a : option analysis) :
  analyze_data data = Ok a -> truthy_analysis a = truthy_list data.
Proof.
  unfold analyze_data. destruct (truthy_list data); simpl.
  - destruct (py_sum each_amount (items data) 0%Q); [|discriminate]. simpl.
    destruct (divide _ _); [|discriminate]. simpl.
    destruct (py_set "Region" (items data)); [|discriminate]. simpl.
    destruct (py_set "Product" (items data)); [|discriminate]. simpl.
    destruct (sales_by "Region" _ _ _); [|discriminate]. simpl.
    destruct (sales_by "Product" _ _ _); [|discriminate]. simpl.
    intros E. inversion E. reflexivity.
  - intros E. inversion E. reflexivity.
Qed.

(** The runs of [main], by what the file holds. *)
Lemma main_run (w : world) (s : state) :
  main w s
  = match load w (input_path w) with
    | Raise e =>
        (Ok tt, printed s ("Reading data..." :: diagnostic (input_path w) e))
    | Ok [] => (Ok tt, printed s ["Reading data..."])
    | Ok rows =>
        match analyze_data (Some rows) with
        | Raise e => (Raise e, printed s ["Reading data..."; "Analyzing data..."])
        | Ok a =>
            match report_body w rows (entries a) with
            | Raise e =>
                (Raise e,
                 printed s ["Reading data..."; "Analyzing data...";
                            "Generating report..."])
            | Ok body =>
                (Ok tt,
                 {| stdout :=
                      stdout s ++ ["Reading data..."; "Analyzing data...";
                                   "Generating report...";
                                   "Report generated successfully: sales_report.pdf"];
                    written := (output_file, report_document w body) :: written s |})
            end
        end
    end.
Proof.
  unfold main. unfold bind at 1. rewrite print_run.
  unfold bind at 1. rewrite read_data_run.
  destruct (load w (input_path w)) as [rows|e].
  2:{ cbn [truthy_list negb]. unfold ret. now rewrite printed_printed. }
  destruct rows as [|r rows]; [reflexivity|].
  cbn [truthy_list negb].
  unfold bind at 1. rewrite print_run, printed_printed. cbn [app].
  unfold bind at 1, lift at 1.
  destruct (analyze_data (Some (r :: rows))) as [a|e] eqn:Ea; [|reflexivity].
  rewrite (analyze_data_truthy _ _ Ea). cbn [truthy_list negb].
  unfold bind at 1. rewrite print_run, printed_printed. cbn [app].
  unfold bind at 1. rewrite generate_report_run.
  rewrite (analyze_data_truthy _ _ Ea). cbn [truthy_list negb orb items].
  destruct (report_body w (r :: rows) (entries a)) as [body|e]; [|reflexivity].
  rewrite print_run. unfold printed. cbn [stdout written].
  now rewrite <- app_assoc.
Qed.

(** C5. When the input file does not exist, [read_data] prints two lines
    that say so and returns [None], and [main] returns at once: nothing
    else is printed (no line of the analysis or of the report) and no
    file is written. *)
Theorem missing_file_stops_the_run (w : world) (s : state) (msg : string) :
  fs_open w (input_path w) = inl (FileNotFoundError msg) ->
  read_data w (input_path w) s
  = (Ok None,
     printed s
       [("Error: The file '" ++ input_path w ++ "' was not found.")%string;
        "Please make sure the file exists in the same directory as the script."])
  /\
  main w s
  = (Ok tt,
     printed s
       ["Reading data...";
        ("Error: The file '" ++ input_path w ++ "' was not found.")%string;
        "Please make sure the file exists in the same directory as the script."]).
Proof.
  intros Hopen. rewrite read_data_run, main_run. unfold load. rewrite Hopen.
  split; reflexivity.
Qed.

(** C8. Given no rows ([None] or an empty list) or no analysis ([None] or
    an empty dictionary), [generate_report] prints that it cannot generate
    the report and returns [False]; it writes no file. *)
Theorem nothing_to_render (w : world) (data : option (list row))
        (a : option analysis) (output_filename : string) (s : state) :
  truthy_list data = false \/ truthy_analysis a = false ->
  generate_report w data a output_filename s
  = (Ok false,
     printed s ["Cannot generate report without valid data and analysis."]).
Proof.
  intros H. rewrite generate_report_run.
  destruct H as [-> | ->]; [reflexivity|]. now rewrite orb_true_r.
Qed.

(** A file with a header and no other line: [main] prints its first line
    and returns; [analyze_data] is not called; nothing is written. *)
Lemma header_only_run (w : world) (s : state) (names : list string) :
  fs_open w (input_path w) = inr [inr names] ->
  main w s = (Ok tt, printed s ["Reading data..."]).
Proof.
  intros Hopen. rewrite main_run. unfold load. now rewrite Hopen.
Qed.
End Runs.

Lemma missing_file_stops_the_run_witness :
  @read_data Sample.no_file "/app/sales_data.csv" initial
  = (Ok None,
     printed initial
       ["Error: The file '/app/sales_data.csv' was not found.";
        "Please make sure the file exists in the same directory as the script."])
  /\
  @main python_first_seen Sample.no_file initial
  = (Ok tt,
     printed initial
       ["Reading data...";
        "Error: The file '/app/sales_data.csv' was not found.";
        "Please make sure the file exists in the same directory as the script."]).
Proof.
  apply (@missing_file_stops_the_run python_first_seen Sample.no_file initial
           "[Errno 2] No such file or directory: '/app/sales_data.csv'").
  reflexivity.
Defined.

Lemma nothing_to_render_witness :
  @generate_report python_first_seen Sample.two_records (Some []) None
    "sales_report.pdf" initial
  = (Ok false,
     printed initial ["Cannot generate report without valid data and analysis."]).
Proof.
  apply (@nothing_to_render python_first_seen). left. reflexivity.
Defined.

(** C4. On a file with a header and no data row, [main] prints
    ["Reading data..."] and returns: [analyze_data], which returns [None]
    for no rows, is not reached, and neither is the line that reports a
    failed analysis. No file is written. *)
Theorem header_only_is_silent :
  load Sample.header_only (input_path Sample.header_only) = Ok [] /\
  @analyze_data python_first_seen (Some []) = Ok None /\
  @main python_first_seen Sample.header_only initial
  = (Ok tt, {| stdout := ["Reading data..."]; written := [] |}).
Proof. repeat split. Qed.

(** ** The table of the report *)

Section Table.
Context {py : Python}.





End Table.


(** ** Rows that cannot be read, amounts that are no numbers *)

Section Malformed.
Context {py : Python}.

Lemma py_sum_raises (data : list row) (r : row) (e0 : exn) (acc : Q) :
  In r data -> amount r = Raise e0 ->
  exists e, py_sum each_amount data acc = Raise e.
Proof.
  revert acc. induction data as [|r' data IH]; intros acc Hin Hr; [contradiction|].
  simpl. unfold each_amount at 1.
  destruct (amount r') as [q|e] eqn:Eq; simpl.
  - destruct Hin as [->|Hin]; [congruence|]. now apply IH.
  - now exists e.
Qed.

Lemma analyze_data_raises (data : list row) (r : row) (e0 : exn) :
  In r data -> amount r = Raise e0 ->
  exists e, analyze_data (Some data) = Raise e.
Proof.
  intros Hin Hr. destruct data as [|r' data]; [contradiction|].
  destruct (py_sum_raises (r' :: data) r e0 0%Q Hin Hr) as (e & He).
  exists e. unfold analyze_data. cbn [truthy_list negb items]. now rewrite He.
Qed.

(** C6, as the program has it. When a line of the file cannot be read,
    [read_data] catches the exception, prints a diagnostic and returns
    [None], and [main] returns with no file written. When the lines are
    read and the [Amount] of a row is text that is no number, the load
    succeeds and returns every row, [analyze_data] raises, and the
    exception ends [main] after its first two lines: no analysis is
    returned and no file is written. *)
Theorem malformed_input_ends_the_run (w : world) (s : state)
        (stream : list (exn + list string)) :
  fs_open w (input_path w) = inr stream ->
  match dict_reader stream with
  | Raise e =>
      read_data w (input_path w) s
      = (Ok None, printed s (diagnostic (input_path w) e)) /\
      main w s
      = (Ok tt, printed s ("Reading data..." :: diagnostic (input_path w) e))
  | Ok rows =>
      (exists r text,
         In r rows /\ getitem r "Amount" = Ok (CStr text) /\ py_float text = None) ->
      read_data w (input_path w) s = (Ok (Some rows), s) /\
      exists e,
        analyze_data (Some rows) = Raise e /\
        main w s = (Raise e, printed s ["Reading data..."; "Analyzing data..."])
  end.
Proof.
  intros Hopen.
  assert (load w (input_path w) = dict_reader stream) as Hload
      by (unfold load; now rewrite Hopen).
  rewrite read_data_run, main_run, Hload.
  destruct (dict_reader stream) as [rows|e]; [|split; reflexivity].
  intros (r & text & Hin & Hget & Hfloat).
  split; [reflexivity|].
  assert (amount r
          = Raise (ValueError ("could not convert string to float: '" ++ text ++ "'")))
    as Hr by (unfold amount; rewrite Hget; simpl; now rewrite Hfloat).
  destruct (analyze_data_raises rows r _ Hin Hr) as (e & He).
  exists e. split; [assumption|].
  rewrite He. destruct rows; [contradiction|reflexivity].
Qed.
End Malformed.

Lemma malformed_input_ends_the_run_witness :
  @read_data Sample.bad_amount "/app/sales_data.csv" initial
  = (Ok (Some (Sample.rows_of Sample.bad_amount_lines)), initial) /\
  exists e,
    @analyze_data python_first_seen (Some (Sample.rows_of Sample.bad_amount_lines))
    = Raise e /\
    @main python_first_seen Sample.bad_amount initial
    = (Raise e, printed initial ["Reading data..."; "Analyzing data..."]).
Proof.
  apply (@malformed_input_ends_the_run python_first_seen Sample.bad_amount initial
           (Sample.file_of Sample.bad_amount_lines) eq_refl).
  exists (dict_of_line Sample.names ["2024-01-02"; "West"; "Gadget"; "abc"]), "abc".
  repeat split. right. left. reflexivity.
Defined.

(** C6, as the specification has it, fails: on a file whose second row has
    the [Amount] [abc], the load does not fail, it returns both rows; no
    diagnostic is printed, only the two progress lines; the run ends with
    the [ValueError] of [float]. *)
Lemma bad_amount_is_loaded :
  @read_data Sample.bad_amount "/app/sales_data.csv" initial
  = (Ok (Some (Sample.rows_of Sample.bad_amount_lines)), initial) /\
  @main python_first_seen Sample.bad_amount initial
  = (Raise (ValueError "could not convert string to float: 'abc'"),
     {| stdout := ["Reading data..."; "Analyzing data..."]; written := [] |}).
Proof. split; reflexivity. Qed.

(** ** Two runs on the same input *)

Section TwoRuns.
Variable float_of : string -> option Q.
Variables order1 order2 : list key -> list key.
Hypothesis order1_ok : set_order_ok order1.
Hypothesis order2_ok : set_order_ok order2.

Let py1 : Python := {| py_float := float_of; set_order := order1 |}.
Let py2 : Python := {| py_float := float_of; set_order := order2 |}.

(** The analysis of rows whose keys and amounts were read, under a set
    order. *)
Let analysis_under (order : list key -> list key) (data : list row)
    (regions products : list key) (qs : list Q) : analysis :=
  {| total_sales := Some (py_total qs);
     average_sale := Some (py_total qs / inject_Z (Z.of_nat (List.length data)))%Q;
     sales_by_region := Some (filed (combine regions qs) (order regions));
     sales_by_product := Some (filed (combine products qs) (order products));
     record_count := Some (List.length data) |}.

(** The set order changes neither whether [analyze_data] returns nor what
    it raises; it changes the order of the two sales dictionaries. *)
Lemma analyze_data_either_order (data : list row) :
  match @analyze_data py1 (Some data), @analyze_data py2 (Some data) with
  | Raise e1, Raise e2 => e1 = e2
  | Ok None, Ok None => True
  | Ok (Some a1), Ok (Some a2) =>
      exists regions products qs,
        a1 = analysis_under order1 data regions products qs /\
        a2 = analysis_under order2 data regions products qs
  | _, _ => False
  end.
Proof.
  destruct data as [|r data]; [exact I|].
  destruct (py_sum (@each_amount py1) (r :: data) 0%Q) as [t|e] eqn:Et.
  2:{ unfold analyze_data. cbn [truthy_list negb items].
      change (@each_amount py2) with (@each_amount py1). now rewrite Et. }
  destruct (set_elements "Region" (r :: data)) as [regions|e] eqn:Er.
  2:{ unfold analyze_data, py_set. cbn [truthy_list negb items].
      change (@each_amount py2) with (@each_amount py1).
      rewrite Et. cbn [rbind divide List.length]. now rewrite Er. }
  destruct (set_elements "Product" (r :: data)) as [products|e] eqn:Ep.
  2:{ unfold analyze_data, py_set. cbn [truthy_list negb items].
      change (@each_amount py2) with (@each_amount py1).
      rewrite Et. cbn [rbind divide List.length]. now rewrite Er, Ep. }
  apply py_sum_amounts in Et as (qs & Fq & _).
  apply set_elements_keys in Er, Ep.
  rewrite (@analyze_data_parsed py1 (r :: data) regions products qs);
    [|discriminate|assumption..].
  rewrite (@analyze_data_parsed py2 (r :: data) regions products qs);
    [|discriminate|assumption..].
  now exists regions, products, qs.
Qed.

Lemma filed_either_order (entries : list (key * Q)) (ks : list key) :
  same_entries (filed entries (order1 ks)) (filed entries (order2 ks)).
Proof.
  destruct (order1_ok ks) as [Hnd1 Hin1], (order2_ok ks) as [Hnd2 Hin2].
  unfold same_entries. rewrite !filed_distinct by assumption.
  apply Permutation_map, NoDup_Permutation; try assumption.
  intros x. now rewrite Hin1, Hin2.
Qed.

(** C3, as the program has it. Two runs on the same input, at the same
    clock reading, under two interpreters that differ in the iteration
    order of sets, end the same way (both return, or both raise the same
    exception) and print the same lines; if one writes the report so does
    the other, and the two documents differ at most in the order of the
    lines inside the region block and inside the product block. *)
Theorem two_runs_agree_up_to_block_order (w : world) :
  fst (@main py1 w initial) = fst (@main py2 w initial) /\
  stdout (snd (@main py1 w initial)) = stdout (snd (@main py2 w initial)) /\
  Forall2 (same_report w)
          (written (snd (@main py1 w initial)))
          (written (snd (@main py2 w initial))).
Proof.
  rewrite !main_run.
  destruct (load w (input_path w)) as [[|r rows]|e];
    [repeat split; constructor| |repeat split; constructor].
  pose proof (analyze_data_either_order (r :: rows)) as Ha.
  destruct (@analyze_data py1 (Some (r :: rows))) as [[a1|]|e1],
           (@analyze_data py2 (Some (r :: rows))) as [[a2|]|e2];
    try contradiction.
  - destruct Ha as (regions & products & qs & -> & ->).
    unfold report_body.
    cbn [entries analysis_under summary_block lookup rbind
         total_sales average_sale sales_by_region sales_by_product record_count].
    change (@table_rows py2) with (@table_rows py1).
    destruct (@table_rows py1 (firstn 10 (r :: rows))) as [table|e];
      [|repeat split; constructor].
    cbn [rbind fst snd stdout written].
    repeat split. constructor; [|constructor].
    repeat split.
    eexists _, table, _, _, _, _.
    split; [apply filed_either_order|].
    split; [apply filed_either_order|].
    split; reflexivity.
  - repeat split; constructor.
  - subst e2. repeat split. constructor.
Qed.
End TwoRuns.

Lemma two_runs_agree_up_to_block_order_witness :
  fst (@main python_first_seen Sample.two_records initial)
  = fst (@main python_last_seen Sample.two_records initial) /\
  stdout (snd (@main python_first_seen Sample.two_records initial))
  = stdout (snd (@main python_last_seen Sample.two_records initial)) /\
  Forall2 (same_report Sample.two_records)
          (written (snd (@main python_first_seen Sample.two_records initial)))
          (written (snd (@main python_last_seen Sample.two_records initial))).
Proof.
  exact (two_runs_agree_up_to_block_order DecimalFloat.float_of_string
           first_seen last_seen first_seen_ok last_seen_ok Sample.two_records).
Defined.

(** C3, as the specification has it, fails: on the example of two records,
    the run under a set that iterates in first-seen order writes the line
    of East before the line of West, and the run under a set that iterates
    in the reverse order writes them the other way round; the clock
    reading is the same in both. *)
Lemma set_order_changes_the_report :
  set_order_ok first_seen /\
  set_order_ok last_seen /\
  map (fun f => doc_body (snd f))
      (written (snd (@main python_first_seen Sample.two_records initial)))
  <> map (fun f => doc_body (snd f))
         (written (snd (@main python_last_seen Sample.two_records initial))).
Proof.
  split; [exact first_seen_ok|]. split; [exact last_seen_ok|].
  vm_compute. discriminate.
Qed.

(** ** [analyze_data] leaves the objects of its caller alone *)

Module HeapFacts.
Import Heap.

Lemma extends_refl (h : heap) : extends h h.
Proof. exists []. now rewrite app_nil_r. Qed.

Lemma extends_trans (h1 h2 h3 : heap) : extends h1 h2 -> extends h2 h3 -> extends h1 h3.
Proof. intros [t1 ->] [t2 ->]. exists (t1 ++ t2). now rewrite app_assoc. Qed.

Lemma extends_length (h h' : heap) : extends h h' -> List.length h <= List.length h'.
Proof. intros [t ->]. rewrite length_app. lia. Qed.

Lemma extends_nth_error (h h' : heap) (l : loc) (o : object) :
  extends h h' -> nth_error h l = Some o -> nth_error h' l = Some o.
Proof.
  intros [t ->] Hl. rewrite nth_error_app1; [assumption|].
  apply nth_error_Some. congruence.
Qed.

Lemma update_app_r (h t : heap) (l : loc) (o : object) :
  List.length h <= l -> update l o (h ++ t) = h ++ update (l - List.length h) o t.
Proof.
  revert l. induction h as [|x h IH]; intros l Hl; simpl in *.
  - now rewrite Nat.sub_0_r.
  - destruct l as [|l]; [lia|]. simpl. f_equal. apply IH. lia.
Qed.

Lemma update_extends (h0 h : heap) (l : loc) (o : object) :
  extends h0 h -> List.length h0 <= l -> extends h0 (update l o h).
Proof.
  intros [t ->] Hl. rewrite update_app_r by assumption. now eexists.
Qed.

(** *** The rules of [keeps] *)

Lemma keeps_ret (h0 : heap) {A} (a : A) (post : A -> Prop) :
  post a -> keeps h0 (hret a) post.
Proof. intros Ha h Hh. split; assumption. Qed.

Lemma keeps_lift (h0 : heap) {A} (r : result A) : keeps h0 (hlift r) (fun _ => True).
Proof. intros h Hh. split; [assumption|]. simpl. now destruct r. Qed.

Lemma keeps_bind (h0 : heap) {A B} (m : H A) (k : A -> H B)
      (mid : A -> Prop) (post : B -> Prop) :
  keeps h0 m mid -> (forall a, mid a -> keeps h0 (k a) post) ->
  keeps h0 (hbind m k) post.
Proof.
  intros Hm Hk h Hh. unfold hbind.
  destruct (Hm h Hh) as [Hext Hmid].
  destruct (m h) as [[a|e] h']; simpl in *.
  - apply (Hk a Hmid h' Hext).
  - split; [assumption|exact I].
Qed.

Lemma keeps_weaken (h0 : heap) {A} (m : H A) (post post' : A -> Prop) :
  keeps h0 m post -> (forall a, post a -> post' a) -> keeps h0 m post'.
Proof.
  intros Hm Hw h Hh. destruct (Hm h Hh) as [Hext Hpost].
  split; [assumption|]. destruct (fst (m h)); auto.
Qed.

Lemma keeps_alloc (h0 : heap) (o : object) :
  keeps h0 (alloc o) (fun l => List.length h0 <= l).
Proof.
  intros h Hh. simpl. split.
  - eapply extends_trans; [exact Hh|]. now exists [o].
  - now apply extends_length.
Qed.

Lemma keeps_store (h0 : heap) (l : loc) (o : object) :
  List.length h0 <= l -> keeps h0 (store l o) (fun _ => True).
Proof.
  intros Hl h Hh. simpl. split; [|exact I]. now apply update_extends.
Qed.

Lemma keeps_load_list (h0 : heap) (l : loc) : keeps h0 (load_list l) (fun _ => True).
Proof.
  intros h Hh. unfold load_list.
  destruct (nth_error h l) as [[]|]; simpl; split; auto.
Qed.

Lemma keeps_load_row (h0 : heap) (l : loc) : keeps h0 (load_row l) (fun _ => True).
Proof.
  intros h Hh. unfold load_row.
  destruct (nth_error h l) as [[]|]; simpl; split; auto.
Qed.

Lemma keeps_load_sales (h0 : heap) (l : loc) : keeps h0 (load_sales l) (fun _ => True).
Proof.
  intros h Hh. unfold load_sales.
  destruct (nth_error h l) as [[]|]; simpl; split; auto.
Qed.

Lemma keeps_load_analysis (h0 : heap) (l : loc) :
  keeps h0 (load_analysis l) (fun _ => True).
Proof.
  intros h Hh. unfold load_analysis.
  destruct (nth_error h l) as [[]|]; simpl; split; auto.
Qed.

Create HintDb keeps discriminated.
#[local] Hint Resolve keeps_ret keeps_lift keeps_alloc keeps_store keeps_load_list
  keeps_load_row keeps_load_sales keeps_load_analysis : keeps.

(** One step of a sequence: the rule of [hbind] with the postcondition of
    its first command found among the hints. *)
Ltac keeps_step :=
  lazymatch goal with
  | |- keeps _ (hbind _ _) _ => eapply keeps_bind; [solve [eauto with keeps]|intros ? ?]
  | |- keeps _ (match ?x with _ => _ end) _ => destruct x
  | |- keeps _ _ _ => solve [eauto with keeps]
  end.

Lemma keeps_setitem_sales (h0 : heap) (d : loc) (k : key) (v : Q) :
  List.length h0 <= d -> keeps h0 (setitem_sales d k v) (fun _ => True).
Proof. intros Hd. unfold setitem_sales. repeat keeps_step. Qed.

Lemma keeps_setitem_analysis (h0 : heap) (a : loc) (f : analysis_ref -> analysis_ref) :
  List.length h0 <= a -> keeps h0 (setitem_analysis a f) (fun _ => True).
Proof. intros Ha. unfold setitem_analysis. repeat keeps_step. Qed.

#[local] Hint Resolve keeps_setitem_sales keeps_setitem_analysis : keeps.

Section Frame.
Context {py : Python}.

Lemma keeps_sum_rows (h0 : heap) (gen : row -> result (option Q))
      (elements : list loc) (acc : Q) :
  keeps h0 (sum_rows gen elements acc) (fun _ => True).
Proof.
  revert acc. induction elements as [|l elements IH]; intros acc; simpl.
  - auto with keeps.
  - repeat keeps_step; apply IH.
Qed.

Lemma keeps_sum_over (h0 : heap) (gen : row -> result (option Q)) (data : loc) :
  keeps h0 (sum_over gen data) (fun _ => True).
Proof.
  unfold sum_over. eapply keeps_bind; [apply keeps_load_list|].
  intros elements _. apply keeps_sum_rows.
Qed.

Lemma keeps_set_rows (h0 : heap) (field : string) (elements : list loc) :
  keeps h0 (set_rows field elements) (fun _ => True).
Proof.
  induction elements as [|l elements IH]; simpl.
  - auto with keeps.
  - do 3 keeps_step. eapply keeps_bind; [exact IH|]. intros ks _. auto with keeps.
Qed.

Lemma keeps_set_over (h0 : heap) (field : string) (data : loc) :
  keeps h0 (set_over field data) (fun _ => True).
Proof.
  unfold set_over. keeps_step.
  eapply keeps_bind; [apply keeps_set_rows|]. intros ks _. auto with keeps.
Qed.

Lemma keeps_len (h0 : heap) (data : loc) : keeps h0 (len data) (fun _ => True).
Proof. unfold len. repeat keeps_step. Qed.

#[local] Hint Resolve keeps_sum_over keeps_set_over keeps_len : keeps.

Lemma keeps_fill (h0 : heap) (field : string) (data : loc) (values : list key) (d : loc) :
  List.length h0 <= d -> keeps h0 (fill field data values d) (fun _ => True).
Proof.
  intros Hd. induction values as [|v values IH]; simpl.
  - auto with keeps.
  - do 2 keeps_step. exact IH.
Qed.

#[local] Hint Resolve keeps_fill : keeps.

Lemma keeps_analyze_data (h0 : heap) (data : option loc) :
  keeps h0 (Heap.analyze_data data) (fun _ => True).
Proof.
  destruct data as [data|]; simpl; [|auto with keeps].
  keeps_step. keeps_step; [auto with keeps|].
  repeat keeps_step.
Qed.

Lemma analyze_data_extends (data : option loc) (h : heap) :
  extends h (snd (Heap.analyze_data data h)).
Proof. apply (keeps_analyze_data h data h), extends_refl. Qed.

(** Every object of the caller is where it was and as it was. *)
Lemma analyze_data_keeps_objects (data : option loc) (h : heap) (l : loc) (o : object) :
  nth_error h l = Some o -> nth_error (snd (Heap.analyze_data data h)) l = Some o.
Proof. apply extends_nth_error, analyze_data_extends. Qed.

(** C9. [analyze_data] changes no object that exists when it is called:
    the heap it leaves is the heap it was given followed by the objects it
    allocated, so the list [data] and every row dictionary in it are as
    they were. *)
Theorem analyze_data_leaves_its_input (data : option loc) (h : heap) :
  (exists fresh, snd (Heap.analyze_data data h) = h ++ fresh) /\
  firstn (List.length h) (snd (Heap.analyze_data data h)) = h.
Proof.
  destruct (analyze_data_extends data h) as [fresh E].
  split; [now exists fresh|].
  rewrite E, firstn_app, Nat.sub_diag, firstn_all. simpl. apply app_nil_r.
Qed.
End Frame.
End HeapFacts.

(** ** The heap version computes the analysis of [analyze_data] *)

Module HeapRefinement.
(** The function on rows, under a name the one on the heap does not hide. *)
Local Abbreviation analyze_rows := analyze_data (only parsing).
Import Heap HeapFacts.

Lemma nth_error_at (h t : heap) (k : nat) :
  nth_error (h ++ t) (List.length h + k) = nth_error t k.
Proof.
  rewrite nth_error_app2 by lia. f_equal. lia.
Qed.

Lemma update_at (h t : heap) (k : nat) (o : object) :
  update (List.length h + k) o (h ++ t) = h ++ update k o t.
Proof.
  rewrite update_app_r by lia. do 2 f_equal. lia.
Qed.

Lemma update_same (h : heap) (l : loc) (o : object) :
  nth_error h l = Some o -> update l o h = h.
Proof.
  revert l. induction h as [|x h IH]; intros [|l]; simpl; try discriminate.
  - intros E. now inversion E.
  - intros E. f_equal. now apply IH.
Qed.

Lemma update_update (h : heap) (l : loc) (o o' : object) :
  update l o (update l o' h) = update l o h.
Proof.
  revert l. induction h as [|x h IH]; intros [|l]; simpl; try reflexivity.
  f_equal. apply IH.
Qed.

Lemma nth_error_update_same (h : heap) (l : loc) (o o' : object) :
  nth_error h l = Some o' -> nth_error (update l o h) l = Some o.
Proof.
  revert l. induction h as [|x h IH]; intros [|l]; simpl; try discriminate.
  - reflexivity.
  - apply IH.
Qed.

Lemma nth_error_update_other (h : heap) (l l' : loc) (o : object) :
  l <> l' -> nth_error (update l o h) l' = nth_error h l'.
Proof.
  revert l l'. induction h as [|x h IH]; intros [|l] [|l'] Hne; simpl;
    try reflexivity; try congruence.
  apply IH. congruence.
Qed.

Lemma holds_extends (h h' : heap) (data : loc) (rows : list row) :
  extends h h' -> holds h data rows -> holds h' data rows.
Proof.
  intros Hext (elements & Hdata & Hrows). exists elements. split.
  - eapply extends_nth_error; eassumption.
  - eapply Forall2_impl; [|exact Hrows].
    intros l r Hl. eapply extends_nth_error; eassumption.
Qed.

(** An assignment to a key of a sales dictionary leaves the rows of [data]
    as they are. *)
Lemma holds_update_sales (h : heap) (data d : loc) (rows : list row)
      (d0 d1 : PyDict.dict key Q) :
  nth_error h d = Some (OSales d0) -> holds h data rows ->
  holds (update d (OSales d1) h) data rows.
Proof.
  intros Hd (elements & Hdata & Hrows). exists elements. split.
  - rewrite nth_error_update_other; [assumption|congruence].
  - eapply Forall2_impl; [|exact Hrows].
    intros l r Hl. rewrite nth_error_update_other; [assumption|congruence].
Qed.

Section Refinement.
Context {py : Python}.

Lemma sum_rows_holds (h : heap) (gen : row -> result (option Q))
      (elements : list loc) (rows : list row) (acc : Q) :
  Forall2 (fun l r => nth_error h l = Some (ORow r)) elements rows ->
  sum_rows gen elements acc h = (py_sum gen rows acc, h).
Proof.
  intros F. revert acc. induction F as [|l r elements rows Hl F IH]; intros acc.
  - reflexivity.
  - simpl. unfold hbind, load_row, hlift. rewrite Hl.
    destruct (gen r) as [[q|]|e]; [apply IH..|reflexivity].
Qed.

Lemma sum_over_holds (h : heap) (gen : row -> result (option Q)) (data : loc)
      (rows : list row) :
  holds h data rows -> sum_over gen data h = (py_sum gen rows 0%Q, h).
Proof.
  intros (elements & Hdata & Hrows).
  unfold sum_over, hbind, load_list. rewrite Hdata.
  now apply sum_rows_holds.
Qed.

Lemma set_rows_holds (h : heap) (field : string) (elements : list loc)
      (rows : list row) :
  Forall2 (fun l r => nth_error h l = Some (ORow r)) elements rows ->
  set_rows field elements h = (set_elements field rows, h).
Proof.
  induction 1 as [|l r elements rows Hl F IH].
  - reflexivity.
  - simpl. unfold hbind, load_row, hlift. rewrite Hl.
    destruct (getitem r field) as [v|e]; [|reflexivity]. simpl.
    destruct (hashable v) as [k|e]; [|reflexivity]. simpl.
    fold (hbind (set_rows field elements) (fun ks => hret (k :: ks)) h).
    unfold hbind. rewrite IH.
    destruct (set_elements field rows); reflexivity.
Qed.

Lemma set_over_holds (h : heap) (field : string) (data : loc) (rows : list row) :
  holds h data rows -> set_over field data h = (py_set field rows, h).
Proof.
  intros (elements & Hdata & Hrows).
  unfold set_over, hbind, load_list. rewrite Hdata.
  rewrite (set_rows_holds h field elements rows Hrows).
  unfold py_set. destruct (set_elements field rows); reflexivity.
Qed.

Lemma len_holds (h : heap) (data : loc) (rows : list row) :
  holds h data rows -> len data h = (Ok (List.length rows), h).
Proof.
  intros (elements & Hdata & Hrows).
  unfold len, hbind, load_list, hret. rewrite Hdata.
  do 2 f_equal. exact (Forall2_length Hrows).
Qed.

(** The loop over a set fills the dictionary at [d] as [sales_by] does. *)
Lemma fill_holds (field : string) (data : loc) (rows : list row)
      (values : list key) (d : loc) (d0 : PyDict.dict key Q) (h : heap) :
  holds h data rows -> nth_error h d = Some (OSales d0) ->
  match sales_by field rows values d0 with
  | Ok d1 => fill field data values d h = (Ok tt, update d (OSales d1) h)
  | Raise e => fst (fill field data values d h) = Raise e
  end.
Proof.
  revert d0 h. induction values as [|v values IH]; intros d0 h Hh Hd.
  - simpl. unfold hret. now rewrite update_same.
  - assert (fill field data (v :: values) d h
            = match py_sum (amount_where field v) rows 0%Q with
              | Ok s =>
                  fill field data values d
                       (update d (OSales (PyDict.set key_eqb v s d0)) h)
              | Raise e => (Raise e, h)
              end) as Hstep.
    { simpl. unfold hbind at 1. rewrite (sum_over_holds h _ data rows Hh).
      destruct (py_sum (amount_where field v) rows 0%Q) as [s|e]; [|reflexivity].
      unfold hbind at 1, setitem_sales, hbind at 1, load_sales, store.
      now rewrite Hd. }
    rewrite Hstep. simpl sales_by.
    destruct (py_sum (amount_where field v) rows 0%Q) as [s|e]; [|reflexivity].
    simpl rbind.
    specialize (IH (PyDict.set key_eqb v s d0)
                   (update d (OSales (PyDict.set key_eqb v s d0)) h)
                   (holds_update_sales h data d rows d0 _ Hd Hh)
                   (nth_error_update_same h d _ _ Hd)).
    destruct (sales_by field rows values (PyDict.set key_eqb v s d0)) as [d1|e].
    + now rewrite IH, update_update.
    + exact IH.
Qed.

Lemma holds_update_analysis (h : heap) (data a : loc) (rows : list row)
      (a0 a1 : analysis_ref) :
  nth_error h a = Some (OAnalysis a0) -> holds h data rows ->
  holds (update a (OAnalysis a1) h) data rows.
Proof.
  intros Ha (elements & Hdata & Hrows). exists elements. split.
  - rewrite nth_error_update_other; [assumption|congruence].
  - eapply Forall2_impl; [|exact Hrows].
    intros l r Hl. rewrite nth_error_update_other; [assumption|congruence].
Qed.

Lemma hbind_ok {A B} (m : H A) (k : A -> H B) (h h' : heap) (a : A) :
  m h = (Ok a, h') -> hbind m k h = k a h'.
Proof. intros E. unfold hbind. now rewrite E. Qed.

Lemma hbind_raise {A B} (m : H A) (k : A -> H B) (h : heap) (e : exn) :
  fst (m h) = Raise e -> fst (hbind m k h) = Raise e.
Proof.
  unfold hbind. destruct (m h) as [[a|e'] h']; simpl; intros E.
  - discriminate.
  - now inversion E.
Qed.

Lemma setitem_analysis_run (h : heap) (a : loc) (f : analysis_ref -> analysis_ref)
      (a0 : analysis_ref) :
  nth_error h a = Some (OAnalysis a0) ->
  setitem_analysis a f h = (Ok tt, update a (OAnalysis (f a0)) h).
Proof.
  intros Ha. unfold setitem_analysis, hbind, load_analysis, store. now rewrite Ha.
Qed.

Lemma nth_error_end (h : heap) (o : object) :
  nth_error (h ++ [o]) (List.length h) = Some o.
Proof. rewrite nth_error_app2, Nat.sub_diag; [reflexivity|lia]. Qed.

Lemma update_end (h : heap) (o o' : object) :
  update (List.length h) o (h ++ [o']) = h ++ [o].
Proof. rewrite update_app_r, Nat.sub_diag; [reflexivity|lia]. Qed.

Lemma nth_error_first (h t : heap) (o : object) :
  nth_error (h ++ o :: t) (List.length h) = Some o.
Proof. rewrite nth_error_app2, Nat.sub_diag; [reflexivity|lia]. Qed.

Lemma nth_error_second (h t : heap) (o1 o2 : object) :
  nth_error (h ++ o1 :: o2 :: t) (S (List.length h)) = Some o2.
Proof.
  replace (S (List.length h)) with (List.length h + 1) by lia.
  now rewrite nth_error_at.
Qed.

Lemma nth_error_third (h t : heap) (o1 o2 o3 : object) :
  nth_error (h ++ o1 :: o2 :: o3 :: t) (S (S (List.length h))) = Some o3.
Proof.
  replace (S (S (List.length h))) with (List.length h + 2) by lia.
  now rewrite nth_error_at.
Qed.

Lemma update_first (h t : heap) (o o' : object) :
  update (List.length h) o (h ++ o' :: t) = h ++ o :: t.
Proof. rewrite update_app_r, Nat.sub_diag; [reflexivity|lia]. Qed.

Lemma update_second (h t : heap) (o o1 o2 : object) :
  update (S (List.length h)) o (h ++ o1 :: o2 :: t) = h ++ o1 :: o :: t.
Proof.
  replace (S (List.length h)) with (List.length h + 1) by lia.
  now rewrite update_at.
Qed.

Lemma update_third (h t : heap) (o o1 o2 o3 : object) :
  update (S (S (List.length h))) o (h ++ o1 :: o2 :: o3 :: t) = h ++ o1 :: o2 :: o :: t.
Proof.
  replace (S (S (List.length h))) with (List.length h + 2) by lia.
  now rewrite update_at.
Qed.

Lemma alloc_second (h : heap) (o1 o : object) :
  alloc o (h ++ [o1]) = (Ok (S (List.length h)), h ++ [o1; o]).
Proof.
  unfold alloc. rewrite length_app, <- app_assoc. simpl. now rewrite Nat.add_1_r.
Qed.

Lemma alloc_third (h : heap) (o1 o2 o : object) :
  alloc o (h ++ [o1; o2]) = (Ok (S (S (List.length h))), h ++ [o1; o2; o]).
Proof.
  unfold alloc. rewrite length_app, <- app_assoc. simpl.
  now replace (List.length h + 2) with (S (S (List.length h))) by lia.
Qed.

Lemma setitem_analysis_first (h t : heap) (f : analysis_ref -> analysis_ref)
      (a0 : analysis_ref) :
  setitem_analysis (List.length h) f (h ++ OAnalysis a0 :: t)
  = (Ok tt, h ++ OAnalysis (f a0) :: t).
Proof.
  rewrite (setitem_analysis_run _ _ f a0 (nth_error_first h t _)).
  now rewrite update_first.
Qed.

(** The rows of [data] parsed, the call on the heap returns a new
    dictionary that refers to two new sales dictionaries: the three
    objects hold the analysis of [analyze_data]. *)
Lemma analyze_data_on_heap_parsed (h : heap) (data : loc) (rows : list row)
      (regions products : list key) (qs : list Q) :
  rows <> [] ->
  holds h data rows ->
  Forall2 (fun r k => key_of "Region" r = Ok k) rows regions ->
  Forall2 (fun r k => key_of "Product" r = Ok k) rows products ->
  Forall2 (fun r q => amount r = Ok q) rows qs ->
  Heap.analyze_data (Some data) h
  = (Ok (Some (List.length h)),
     h ++ [OAnalysis
             {| ref_total_sales := Some (py_total qs);
                ref_average_sale :=
                  Some (py_total qs / inject_Z (Z.of_nat (List.length rows)))%Q;
                ref_sales_by_region := Some (S (List.length h));
                ref_sales_by_product := Some (S (S (List.length h)));
                ref_record_count := Some (List.length rows) |};
           OSales (filed (combine regions qs) (set_order regions));
           OSales (filed (combine products qs) (set_order products))]).
Proof.
  intros Hne Hh Fr Fp Fq.
  pose proof (py_sum_of_amounts rows qs 0%Q Fq) as Et.
  fold (py_total qs) in Et.
  pose proof (proj2 (set_elements_keys "Region" rows regions) Fr) as Er.
  pose proof (proj2 (set_elements_keys "Product" rows products) Fp) as Ep.
  pose proof (sales_by_filed "Region" rows regions qs (set_order regions) [] Fr Fq) as Sr.
  pose proof (sales_by_filed "Product" rows products qs (set_order products) [] Fp Fq) as Sp.
  fold (filed (combine regions qs) (set_order regions)) in Sr.
  fold (filed (combine products qs) (set_order products)) in Sp.
  set (by_region := filed (combine regions qs) (set_order regions)) in *.
  set (by_product := filed (combine products qs) (set_order products)) in *.
  assert (forall h', extends h h' -> holds h' data rows) as Hext
      by (intros h' E; eapply holds_extends; eassumption).
  assert (forall h', holds h' data rows -> len data h' = (Ok (List.length rows), h'))
    as Elen by (intros; now apply len_holds).
  assert (forall h', holds h' data rows ->
            sum_over each_amount data h' = (Ok (py_total qs), h')) as Esum
      by (intros h' Hh'; now rewrite (sum_over_holds h' _ data rows Hh'), Et).
  assert (forall h', holds h' data rows ->
            set_over "Region" data h' = (Ok (set_order regions), h')) as Eregions
      by (intros h' Hh'; rewrite (set_over_holds h' _ data rows Hh');
          unfold py_set; now rewrite Er).
  assert (forall h', holds h' data rows ->
            set_over "Product" data h' = (Ok (set_order products), h')) as Eproducts
      by (intros h' Hh'; rewrite (set_over_holds h' _ data rows Hh');
          unfold py_set; now rewrite Ep).
  destruct (List.length rows) as [|n] eqn:Hn;
    [destruct rows; [congruence|discriminate]|].
  set (h1 := h ++ [OAnalysis empty_ref]).
  set (h2 := h ++ [OAnalysis empty_ref; OSales []]).
  set (h3 := h ++ [OAnalysis empty_ref; OSales by_region]).
  set (h4 := h ++ [OAnalysis empty_ref; OSales by_region; OSales []]).
  set (h5 := h ++ [OAnalysis empty_ref; OSales by_region; OSales by_product]).
  assert (holds h1 data rows) as Hh1 by (apply Hext; now eexists).
  assert (holds h2 data rows) as Hh2 by (apply Hext; now eexists).
  assert (holds h4 data rows) as Hh4 by (apply Hext; now eexists).
  assert (holds h5 data rows) as Hh5 by (apply Hext; now eexists).
  assert (fill "Region" data (set_order regions) (S (List.length h)) h2 = (Ok tt, h3))
    as Efill_r.
  { pose proof (fill_holds "Region" data rows (set_order regions)
                  (S (List.length h)) [] h2 Hh2 (nth_error_second h [] _ _)) as F.
    rewrite Sr in F. rewrite F. unfold h2, h3. now rewrite update_second. }
  assert (fill "Product" data (set_order products) (S (S (List.length h))) h4 = (Ok tt, h5))
    as Efill_p.
  { pose proof (fill_holds "Product" data rows (set_order products)
                  (S (S (List.length h))) [] h4 Hh4 (nth_error_third h [] _ _ _)) as F.
    rewrite Sp in F. rewrite F. unfold h4, h5. now rewrite update_third. }
  unfold Heap.analyze_data.
  rewrite (hbind_ok _ _ h h _ (Elen h Hh)).
  rewrite (hbind_ok (alloc _) _ h h1 (List.length h) eq_refl).
  rewrite (hbind_ok _ _ h1 h1 _ (Esum h1 Hh1)).
  rewrite (hbind_ok _ _ h1 h1 _ (Elen h1 Hh1)).
  cbn [divide].
  rewrite (hbind_ok (hlift _) _ h1 h1 _ eq_refl).
  rewrite (hbind_ok _ _ h1 h1 _ (Eregions h1 Hh1)).
  rewrite (hbind_ok _ _ h1 h1 _ (Eproducts h1 Hh1)).
  rewrite (hbind_ok _ _ h1 h2 _ (alloc_second h _ _)).
  rewrite (hbind_ok _ _ h2 h3 _ Efill_r).
  rewrite (hbind_ok _ _ h3 h4 _ (alloc_third h _ _ _)).
  rewrite (hbind_ok _ _ h4 h5 _ Efill_p).
  unfold h5.
  do 4 rewrite (hbind_ok _ _ _ _ _ (setitem_analysis_first h _ _ _)).
  rewrite (hbind_ok _ _ _ _ _ (Elen _ (Hext _ (ex_intro _ _ eq_refl)))).
  rewrite (hbind_ok _ _ _ _ _ (setitem_analysis_first h _ _ _)).
  reflexivity.
Qed.

(** The call on the heap returns what [analyze_data] returns on the rows
    of [data], and raises what it raises. *)
Lemma analyze_data_on_heap (h : heap) (data : loc) (rows : list row) :
  holds h data rows ->
  match analyze_rows (Some rows) with
  | Raise e => fst (Heap.analyze_data (Some data) h) = Raise e
  | Ok None => Heap.analyze_data (Some data) h = (Ok None, h)
  | Ok (Some a) =>
      exists l,
        fst (Heap.analyze_data (Some data) h) = Ok (Some l) /\
        reads (snd (Heap.analyze_data (Some data) h)) l a
  end.
Proof.
  intros Hh.
  destruct (analyze_rows (Some rows)) as [[a|]|e] eqn:Ea.
  - destruct (analyze_data_returns rows a Ea)
      as (Hne & regions & products & qs & Fr & Fp & Fq).
    rewrite (analyze_data_parsed rows regions products qs Hne Fr Fp Fq) in Ea.
    inversion Ea as [Ha]. clear Ea.
    rewrite (analyze_data_on_heap_parsed h data rows regions products qs Hne Hh Fr Fp Fq).
    exists (List.length h). split; [reflexivity|].
    eexists _, _, _. cbn [snd].
    split; [apply nth_error_first|].
    cbn [ref_sales_by_region ref_sales_by_product ref_total_sales ref_average_sale
         ref_record_count total_sales average_sale record_count
         sales_by_region sales_by_product option_map].
    repeat split.
    + symmetry. apply nth_error_second.
    + symmetry. apply nth_error_third.
  - destruct rows as [|r0 rows0].
    + unfold Heap.analyze_data.
      now rewrite (hbind_ok _ _ h h _ (len_holds h data [] Hh)).
    + apply analyze_data_truthy in Ea. discriminate.
  - destruct rows as [|r0 rows0]; [discriminate|].
    set (h1 := h ++ [OAnalysis empty_ref]).
    set (h2 := h ++ [OAnalysis empty_ref; OSales []]).
    assert (holds h1 data (r0 :: rows0)) as Hh1
        by (eapply holds_extends; [|exact Hh]; now eexists).
    assert (holds h2 data (r0 :: rows0)) as Hh2
        by (eapply holds_extends; [|exact Hh]; now eexists).
    unfold Heap.analyze_data.
    rewrite (hbind_ok _ _ h h _ (len_holds h data _ Hh)).
    cbn [List.length].
    rewrite (hbind_ok (alloc _) _ h h1 (List.length h) eq_refl).
    unfold analyze_rows in Ea. cbn [truthy_list negb items] in Ea.
    destruct (py_sum each_amount (r0 :: rows0) 0%Q) as [t|e1] eqn:Et.
    2:{ apply hbind_raise. rewrite (sum_over_holds h1 _ data _ Hh1), Et.
        now inversion Ea. }
    rewrite (hbind_ok _ _ h1 h1 t)
      by (now rewrite (sum_over_holds h1 _ data _ Hh1), Et).
    rewrite (hbind_ok _ _ h1 h1 _ (len_holds h1 data _ Hh1)).
    cbn [rbind divide List.length] in Ea. cbn [divide List.length].
    rewrite (hbind_ok (hlift _) _ h1 h1 _ eq_refl).
    destruct (py_set "Region" (r0 :: rows0)) as [regions|e1] eqn:Er.
    2:{ apply hbind_raise. rewrite (set_over_holds h1 _ data _ Hh1), Er.
        now inversion Ea. }
    rewrite (hbind_ok _ _ h1 h1 regions)
      by (now rewrite (set_over_holds h1 _ data _ Hh1), Er).
    cbn [rbind] in Ea.
    destruct (py_set "Product" (r0 :: rows0)) as [products|e1] eqn:Ep.
    2:{ apply hbind_raise. rewrite (set_over_holds h1 _ data _ Hh1), Ep.
        now inversion Ea. }
    rewrite (hbind_ok _ _ h1 h1 products)
      by (now rewrite (set_over_holds h1 _ data _ Hh1), Ep).
    cbn [rbind] in Ea.
    rewrite (hbind_ok _ _ h1 h2 _ (alloc_second h _ _)).
    pose proof (fill_holds "Region" data _ regions (S (List.length h)) [] h2 Hh2
                  (nth_error_second h [] _ _)) as Fr.
    destruct (sales_by "Region" (r0 :: rows0) regions []) as [by_region|e1].
    2:{ apply hbind_raise. rewrite Fr. now inversion Ea. }
    rewrite (hbind_ok _ _ _ _ _ Fr). unfold h2. rewrite update_second.
    cbn [rbind] in Ea.
    rewrite (hbind_ok _ _ _ _ _ (alloc_third h _ _ _)).
    assert (holds (h ++ [OAnalysis empty_ref; OSales by_region; OSales []])
                  data (r0 :: rows0)) as Hh4
        by (eapply holds_extends; [|exact Hh]; now eexists).
    pose proof (fill_holds "Product" data _ products (S (S (List.length h))) [] _ Hh4
                  (nth_error_third h [] _ _ _)) as Fp.
    destruct (sales_by "Product" (r0 :: rows0) products []) as [by_product|e1].
    + discriminate.
    + apply hbind_raise. rewrite Fp. now inversion Ea.
Qed.
End Refinement.

(** The example of the specification on the heap: the two rows and the list
    are followed by the analysis and its two sales dictionaries. *)
Example analysis_of_the_example_on_heap :
  holds Sample.heap 2 (Sample.rows_of Sample.two_lines) /\
  @Heap.analyze_data python_first_seen (Some 2) Sample.heap
  = (Ok (Some 3),
     Sample.heap
     ++ [OAnalysis {| ref_total_sales := Some (150 # 1)%Q;
                      ref_average_sale := Some (150 # 2)%Q;
                      ref_sales_by_region := Some 4;
                      ref_sales_by_product := Some 5;
                      ref_record_count := Some 2 |};
         OSales [(Some "East", (100 # 1)%Q); (Some "West", (50 # 1)%Q)];
         OSales [(Some "Widget", (100 # 1)%Q); (Some "Gadget", (50 # 1)%Q)]]).
Proof.
  split; [|reflexivity].
  exists [0; 1]. split; [reflexivity|]. repeat constructor.
Qed.
End HeapRefinement.

(** * More of [analyze_data] *)

Section MoreAnalysis.
Context {py : Python}.

(** X1. [analyze_data] returns [None] exactly when [data] is [None] or an
    empty list; for any other input it returns a dictionary or raises. *)
Theorem analyze_data_none_iff (data : option (list row)) :
  analyze_data data = Ok None <-> truthy_list data = false.
Proof.
  split.
  - intros E. now rewrite <- (analyze_data_truthy data None E).
  - intros E. unfold analyze_data. now rewrite E.
Qed.

Lemma Forall2_has_key (field : string) (data : list row) (ks : list key) (k : key) :
  Forall2 (fun r k => key_of field r = Ok k) data ks ->
  In k ks <-> has_key field data k.
Proof.
  induction 1 as [|r k' data ks Hk F IH]; simpl.
  - split; [contradiction|]. intros (r & [] & _).
  - split.
    + intros [->|Hin].
      * exists r. split; [now left|assumption].
      * apply IH in Hin as (r' & Hr' & Hk'). exists r'. split; [now right|assumption].
    + intros (r' & [->|Hr'] & Hk').
      * left. congruence.
      * right. apply IH. now exists r'.
Qed.

Lemma keys_of_filed (entries : list (key * Q)) (values : list key) :
  NoDup values -> PyDict.keys (filed entries values) = values.
Proof.
  intros Hnd. rewrite filed_distinct by assumption.
  unfold PyDict.keys. rewrite map_map. simpl. apply map_id.
Qed.

(** X2. The keys of [sales_by_region] are the regions of the rows, each
    one once, and the keys of [sales_by_product] are the products of the
    rows, each one once. *)
Theorem sales_keys_are_the_categories (data : list row) (a : analysis) :
  set_order_ok set_order ->
  analyze_data (Some data) = Ok (Some a) ->
  exists by_region by_product,
    sales_by_region a = Some by_region /\
    sales_by_product a = Some by_product /\
    NoDup (PyDict.keys by_region) /\
    (forall k, In k (PyDict.keys by_region) <-> has_key "Region" data k) /\
    NoDup (PyDict.keys by_product) /\
    (forall k, In k (PyDict.keys by_product) <-> has_key "Product" data k).
Proof.
  intros Hok Ea.
  destruct (analyze_data_returns data a Ea)
    as (Hne & regions & products & qs & Fr & Fp & Fq).
  rewrite (analyze_data_parsed data regions products qs Hne Fr Fp Fq) in Ea.
  inversion Ea. subst a. clear Ea.
  destruct (Hok regions) as [Hndr Hinr], (Hok products) as [Hndp Hinp].
  eexists _, _. split; [reflexivity|]. split; [reflexivity|].
  rewrite !keys_of_filed by assumption.
  repeat split; try assumption.
  - intros H. apply (Forall2_has_key _ _ _ _ Fr), Hinr, H.
  - intros H. apply Hinr, (Forall2_has_key _ _ _ _ Fr), H.
  - intros H. apply (Forall2_has_key _ _ _ _ Fp), Hinp, H.
  - intros H. apply Hinp, (Forall2_has_key _ _ _ _ Fp), H.
Qed.

Lemma get_of_map {V} (f : key -> V) (values : list key) (k : key) :
  PyDict.get key_eqb k (map (fun v => (v, f v)) values)
  = if existsb (key_eqb k) values then Some (f k) else None.
Proof.
  induction values as [|v values IH]; simpl.
  - reflexivity.
  - destruct (key_eqb k v) eqn:E; simpl.
    + apply key_eqb_eq in E. now subst.
    + exact IH.
Qed.

Lemma existsb_key (k : key) (values : list key) :
  existsb (key_eqb k) values = true <-> In k values.
Proof.
  rewrite existsb_exists. split.
  - intros (x & Hx & E). apply key_eqb_eq in E. now subst.
  - intros H. exists k. split; [assumption|apply key_eqb_refl].
Qed.

(** The bucket of the entries read off the rows is the list of the amounts
    of the rows filed under the value. *)
Lemma bucket_amounts_in (field : string) (value : key) (data : list row)
      (ks : list key) (qs : list Q) :
  Forall2 (fun r k => key_of field r = Ok k) data ks ->
  Forall2 (fun r q => amount r = Ok q) data qs ->
  bucket (combine ks qs) value = amounts_in field value data.
Proof.
  intros Fk. revert qs. induction Fk as [|r k data ks Hk Fk IH]; intros qs Fq.
  - reflexivity.
  - inversion Fq as [|? q ? qs' Hq Fq']; subst.
    unfold bucket, amounts_in in *. simpl. rewrite Hk, Hq.
    destruct (key_eqb k value); simpl; now rewrite IH.
Qed.

(** X3. In the dictionary [analyze_data] returns, the value under a region
    is the sum, in the order of the rows, of the amounts of the rows of
    that region, and a key that is the region of no row is absent; the
    same holds of the products. *)
Theorem sales_value_is_the_bucket_total (data : list row) (a : analysis) :
  set_order_ok set_order ->
  analyze_data (Some data) = Ok (Some a) ->
  exists by_region by_product,
    sales_by_region a = Some by_region /\
    sales_by_product a = Some by_product /\
    (forall k, has_key "Region" data k ->
       PyDict.get key_eqb k by_region = Some (py_total (amounts_in "Region" k data))) /\
    (forall k, ~ has_key "Region" data k -> PyDict.get key_eqb k by_region = None) /\
    (forall k, has_key "Product" data k ->
       PyDict.get key_eqb k by_product = Some (py_total (amounts_in "Product" k data))) /\
    (forall k, ~ has_key "Product" data k -> PyDict.get key_eqb k by_product = None).
Proof.
  intros Hok Ea.
  destruct (analyze_data_returns data a Ea)
    as (Hne & regions & products & qs & Fr & Fp & Fq).
  rewrite (analyze_data_parsed data regions products qs Hne Fr Fp Fq) in Ea.
  inversion Ea. subst a. clear Ea.
  destruct (Hok regions) as [Hndr Hinr], (Hok products) as [Hndp Hinp].
  eexists _, _. split; [reflexivity|]. split; [reflexivity|].
  rewrite !filed_distinct by assumption.
  repeat split; intros k Hk; rewrite get_of_map.
  - rewrite (proj2 (existsb_key k _))
      by (apply Hinr, (Forall2_has_key _ _ _ _ Fr), Hk).
    now rewrite (bucket_amounts_in "Region" k data regions qs Fr Fq).
  - destruct (existsb (key_eqb k) (set_order regions)) eqn:E; [|reflexivity].
    exfalso. apply Hk, (Forall2_has_key _ _ _ _ Fr), Hinr, existsb_key, E.
  - rewrite (proj2 (existsb_key k _))
      by (apply Hinp, (Forall2_has_key _ _ _ _ Fp), Hk).
    now rewrite (bucket_amounts_in "Product" k data products qs Fp Fq).
  - destruct (existsb (key_eqb k) (set_order products)) eqn:E; [|reflexivity].
    exfalso. apply Hk, (Forall2_has_key _ _ _ _ Fp), Hinp, existsb_key, E.
Qed.

Lemma py_sum_raise_inv {A} (gen : A -> result (option Q)) (l : list A) (acc : Q) (e : exn) :
  py_sum gen l acc = Raise e -> exists x, In x l /\ gen x = Raise e.
Proof.
  revert acc. induction l as [|x l IH]; intros acc; simpl; [discriminate|].
  destruct (gen x) as [[q|]|e'] eqn:Ex.
  - intros E. destruct (IH _ E) as (y & Hy & Ey). exists y. split; [now right|assumption].
  - intros E. destruct (IH _ E) as (y & Hy & Ey). exists y. split; [now right|assumption].
  - intros E. inversion E. subst. exists x. split; [now left|assumption].
Qed.

Lemma amount_raise_inv (r : row) (e : exn) :
  amount r = Raise e ->
  e = KeyError "Amount" \/ (exists msg, e = ValueError msg) \/ (exists msg, e = TypeError msg).
Proof.
  unfold amount, getitem.
  destruct (PyDict.get key_eqb (Some "Amount") r) as [[s| |l]|]; simpl.
  - destruct (py_float s); [discriminate|]. intros E. inversion E. right. left. now eexists.
  - intros E. inversion E. right. right. now eexists.
  - intros E. inversion E. right. right. now eexists.
  - intros E. inversion E. now left.
Qed.

Lemma each_amount_raise_inv (r : row) (e : exn) :
  each_amount r = Raise e -> amount r = Raise e.
Proof. unfold each_amount. destruct (amount r); simpl; congruence. Qed.

Lemma set_elements_raise_inv (field : string) (data : list row) (e : exn) :
  set_elements field data = Raise e ->
  e = KeyError field \/ exists msg, e = TypeError msg.
Proof.
  induction data as [|r data IH]; simpl; [discriminate|].
  unfold getitem at 1.
  destruct (PyDict.get key_eqb (Some field) r) as [v|]; simpl.
  - destruct v; simpl; try (destruct (set_elements field data); simpl;
                           [discriminate|intros E; inversion E; subst; now apply IH]).
    intros E. inversion E. right. now eexists.
  - intros E. inversion E. now left.
Qed.

Lemma sales_by_raise_inv (field : string) (data : list row) (values : list key)
      (d : PyDict.dict key Q) (e : exn) :
  sales_by field data values d = Raise e ->
  e = KeyError field \/ e = KeyError "Amount" \/
  (exists msg, e = ValueError msg) \/ (exists msg, e = TypeError msg).
Proof.
  revert d. induction values as [|v values IH]; intros d; simpl; [discriminate|].
  destruct (py_sum (amount_where field v) data 0%Q) as [s|e'] eqn:Es; simpl.
  - apply IH.
  - intros E. inversion E. subst e'. clear E.
    apply py_sum_raise_inv in Es as (r & _ & Er).
    unfold amount_where, getitem in Er.
    destruct (PyDict.get key_eqb (Some field) r) as [c|]; simpl in Er.
    + destruct (cell_is c v); [|discriminate].
      apply each_amount_raise_inv, amount_raise_inv in Er. now right.
    + inversion Er. now left.
Qed.

(** X4. The exceptions [analyze_data] raises come from the rows: a
    [KeyError] for a missing [Amount], [Region] or [Product], a
    [ValueError] or a [TypeError] for a value; it never raises
    [ZeroDivisionError], the guard on empty data keeps the divisor from
    zero. *)
Theorem analyze_data_raises_data_errors (data : option (list row)) (e : exn) :
  analyze_data data = Raise e ->
  data_error e /\ forall msg, e <> ZeroDivisionError msg.
Proof.
  intros E.
  assert (data_error e) as He.
  { unfold analyze_data in E.
    destruct data as [[|r rows]|]; try discriminate.
    cbn [truthy_list negb items] in E.
    destruct (py_sum each_amount (r :: rows) 0%Q) as [t|e'] eqn:Et.
    2:{ inversion E. subst e'.
        apply py_sum_raise_inv in Et as (x & _ & Ex).
        apply each_amount_raise_inv, amount_raise_inv in Ex.
        unfold data_error. tauto. }
    cbn [rbind divide List.length] in E. unfold py_set in E.
    destruct (set_elements "Region" (r :: rows)) as [regions|e'] eqn:Er.
    2:{ inversion E. subst e'. apply set_elements_raise_inv in Er.
        unfold data_error. tauto. }
    cbn [rbind] in E.
    destruct (set_elements "Product" (r :: rows)) as [products|e'] eqn:Ep.
    2:{ inversion E. subst e'. apply set_elements_raise_inv in Ep.
        unfold data_error. tauto. }
    cbn [rbind] in E.
    destruct (sales_by "Region" (r :: rows) (set_order regions) []) as [by_region|e'] eqn:Sr.
    2:{ inversion E. subst e'. apply sales_by_raise_inv in Sr.
        unfold data_error. tauto. }
    cbn [rbind] in E.
    destruct (sales_by "Product" (r :: rows) (set_order products) []) as [by_product|e'] eqn:Sp.
    2:{ inversion E. subst e'. apply sales_by_raise_inv in Sp.
        unfold data_error. tauto. }
    discriminate. }
  split; [assumption|].
  intros msg ->. destruct He as [H|[H|[H|[[m H]|[m H]]]]]; discriminate.
Qed.
End MoreAnalysis.

Lemma sales_keys_are_the_categories_witness :
  exists by_region by_product,
    sales_by_region Sample.analysis_of_two = Some by_region /\
    sales_by_product Sample.analysis_of_two = Some by_product /\
    NoDup (PyDict.keys by_region) /\
    (forall k, In k (PyDict.keys by_region)
               <-> has_key "Region" (Sample.rows_of Sample.two_lines) k) /\
    NoDup (PyDict.keys by_product) /\
    (forall k, In k (PyDict.keys by_product)
               <-> has_key "Product" (Sample.rows_of Sample.two_lines) k).
Proof.
  exact (@sales_keys_are_the_categories python_first_seen
           (Sample.rows_of Sample.two_lines) Sample.analysis_of_two
           first_seen_ok eq_refl).
Defined.

Lemma sales_value_is_the_bucket_total_witness :
  exists by_region by_product,
    sales_by_region Sample.analysis_of_two = Some by_region /\
    sales_by_product Sample.analysis_of_two = Some by_product /\
    (forall k, has_key "Region" (Sample.rows_of Sample.two_lines) k ->
       PyDict.get key_eqb k by_region
       = Some (py_total (@amounts_in python_first_seen "Region" k
                           (Sample.rows_of Sample.two_lines)))) /\
    (forall k, ~ has_key "Region" (Sample.rows_of Sample.two_lines) k ->
       PyDict.get key_eqb k by_region = None) /\
    (forall k, has_key "Product" (Sample.rows_of Sample.two_lines) k ->
       PyDict.get key_eqb k by_product
       = Some (py_total (@amounts_in python_first_seen "Product" k
                           (Sample.rows_of Sample.two_lines)))) /\
    (forall k, ~ has_key "Product" (Sample.rows_of Sample.two_lines) k ->
       PyDict.get key_eqb k by_product = None).
Proof.
  exact (@sales_value_is_the_bucket_total python_first_seen
           (Sample.rows_of Sample.two_lines) Sample.analysis_of_two
           first_seen_ok eq_refl).
Defined.

Lemma analyze_data_raises_data_errors_witness :
  data_error (ValueError "could not convert string to float: 'abc'") /\
  forall msg,
    ValueError "could not convert string to float: 'abc'" <> ZeroDivisionError msg.
Proof.
  exact (@analyze_data_raises_data_errors python_first_seen
           (Some (Sample.rows_of Sample.bad_amount_lines)) _ eq_refl).
Defined.

(** ** The columns and the order of the rows *)

Section Columns.
Context {py : Python}.

Lemma py_sum_ext {A B} (gen : A -> result (option Q)) (gen' : B -> result (option Q))
      (l : list A) (l' : list B) (acc : Q) :
  Forall2 (fun x y => gen x = gen' y) l l' -> py_sum gen l acc = py_sum gen' l' acc.
Proof.
  intros F. revert acc. induction F as [|x y l l' E F IH]; intros acc; simpl.
  - reflexivity.
  - rewrite E. destruct (gen' y) as [[q|]|e]; auto.
Qed.

Lemma amount_ext (r r' : row) :
  getitem r "Amount" = getitem r' "Amount" -> amount r = amount r'.
Proof. unfold amount. now intros ->. Qed.

Lemma set_elements_ext (field : string) (data data' : list row) :
  Forall2 (fun r r' => getitem r field = getitem r' field) data data' ->
  set_elements field data = set_elements field data'.
Proof.
  induction 1 as [|r r' data data' E F IH]; simpl.
  - reflexivity.
  - now rewrite E, IH.
Qed.

Lemma sales_by_ext (field : string) (data data' : list row) (values : list key)
      (d : PyDict.dict key Q) :
  Forall2 (fun r r' => getitem r field = getitem r' field /\
                       getitem r "Amount" = getitem r' "Amount") data data' ->
  sales_by field data values d = sales_by field data' values d.
Proof.
  intros F. revert d. induction values as [|v values IH]; intros d; simpl.
  - reflexivity.
  - rewrite (py_sum_ext (amount_where field v) (amount_where field v) data data').
    + destruct (py_sum (amount_where field v) data' 0%Q); simpl; auto.
    + eapply Forall2_impl; [|exact F]. intros r r' [E1 E2]. simpl.
      unfold amount_where, each_amount. now rewrite E1, (amount_ext r r' E2).
Qed.

(** X5. [analyze_data] reads three columns: on two lists of rows that
    agree, row by row, on [Region], [Product] and [Amount] (present or
    not), it returns the same analysis or raises the same exception,
    whatever the other columns hold. *)
Theorem analyze_data_reads_three_columns (data data' : list row) :
  Forall2 same_sales_fields data data' ->
  analyze_data (Some data) = analyze_data (Some data').
Proof.
  intros F.
  assert (List.length data = List.length data') as Hlen by apply (Forall2_length F).
  destruct F as [|r r' data data' E F]; [reflexivity|].
  assert (Forall2 same_sales_fields (r :: data) (r' :: data')) as F'
      by now constructor.
  unfold analyze_data. cbn [truthy_list negb items].
  rewrite (py_sum_ext each_amount each_amount (r :: data) (r' :: data')).
  2:{ eapply Forall2_impl; [|exact F']. intros x y (_ & _ & Ea). simpl.
      unfold each_amount. now rewrite (amount_ext x y Ea). }
  rewrite Hlen. unfold py_set.
  rewrite (set_elements_ext "Region" (r :: data) (r' :: data')).
  2:{ eapply Forall2_impl; [|exact F']. now intros x y (Er & _ & _). }
  rewrite (set_elements_ext "Product" (r :: data) (r' :: data')).
  2:{ eapply Forall2_impl; [|exact F']. now intros x y (_ & Ep & _). }
  destruct (py_sum each_amount (r' :: data') 0%Q); [|reflexivity]. cbn [rbind].
  destruct (divide _ _); [|reflexivity]. cbn [rbind].
  destruct (set_elements "Region" (r' :: data')) as [regions|]; [|reflexivity].
  cbn [rbind].
  destruct (set_elements "Product" (r' :: data')) as [products|]; [|reflexivity].
  cbn [rbind].
  rewrite (sales_by_ext "Region" (r :: data) (r' :: data')).
  2:{ eapply Forall2_impl; [|exact F']. now intros x y (Er & _ & Ea). }
  rewrite (sales_by_ext "Product" (r :: data) (r' :: data')).
  2:{ eapply Forall2_impl; [|exact F']. now intros x y (_ & Ep & Ea). }
  reflexivity.
Qed.
End Columns.

Lemma analyze_data_reads_three_columns_witness :
  @analyze_data python_first_seen (Some (Sample.rows_of Sample.two_lines))
  = @analyze_data python_first_seen (Some Sample.two_lines_other_columns).
Proof.
  apply (@analyze_data_reads_three_columns python_first_seen).
  repeat constructor.
Defined.

Section RowOrder.
Context {py : Python}.
Local Open Scope Q_scope.





End RowOrder.



(** * More of [read_data] *)

(** ** Lookups in the dictionaries *)

Lemma keys_set {V} (k k' : key) (v : V) (d : PyDict.dict key V) :
  In k (PyDict.keys (PyDict.set key_eqb k' v d)) <-> In k (PyDict.keys d) \/ k = k'.
Proof.
  induction d as [|[k0 v0] d IH]; simpl.
  - intuition.
  - destruct (key_eqb k' k0) eqn:E; simpl.
    + apply key_eqb_eq in E. subst k0. intuition.
    + rewrite IH. intuition.
Qed.

Lemma keys_fold_set {X V} (g : X -> key) (h : X -> V) (l : list X)
      (d : PyDict.dict key V) (k : key) :
  In k (PyDict.keys (fold_left (fun d x => PyDict.set key_eqb (g x) (h x) d) l d))
  <-> In k (PyDict.keys d) \/ In k (map g l).
Proof.
  revert d. induction l as [|x l IH]; intros d; simpl.
  - intuition.
  - rewrite IH, keys_set. intuition.
Qed.

Lemma get_in_keys {V} (k : key) (d : PyDict.dict key V) :
  In k (PyDict.keys d) <-> exists v, PyDict.get key_eqb k d = Some v.
Proof.
  induction d as [|[k0 v0] d IH]; simpl.
  - split; [contradiction|]. intros [v E]. discriminate.
  - destruct (key_eqb k k0) eqn:E.
    + apply key_eqb_eq in E. subst. split; [now eexists|now left].
    + apply key_eqb_neq in E. rewrite <- IH. intuition congruence.
Qed.

Lemma getitem_in_keys (r : row) (name : string) :
  In (Some name) (PyDict.keys r) <-> exists v, getitem r name = Ok v.
Proof.
  rewrite get_in_keys. unfold getitem.
  destruct (PyDict.get key_eqb (Some name) r) as [v|].
  - split; intros _; now eexists.
  - split; intros [v E]; discriminate.
Qed.

Lemma getitem_not_in_keys (r : row) (name : string) :
  ~ In (Some name) (PyDict.keys r) -> getitem r name = Raise (KeyError name).
Proof.
  intros H. unfold getitem.
  destruct (PyDict.get key_eqb (Some name) r) as [v|] eqn:E; [|reflexivity].
  exfalso. apply H. apply (proj2 (get_in_keys (Some name) r)). now exists v.
Qed.

Lemma map_fst_combine {A B} (l : list A) (l' : list B) :
  map fst (combine l l') = firstn (List.length l') l.
Proof.
  revert l'. induction l as [|x l IH]; intros [|y l']; simpl; try reflexivity.
  now rewrite IH.
Qed.

(** ** The rows of a line *)

(** The string keys of the row of a line are the names of the header. *)
Lemma dict_of_line_columns (names fields : list string) (name : string) :
  In (Some name) (PyDict.keys (dict_of_line names fields)) <-> In name names.
Proof.
  assert (forall l, In (Some name) (map Some l) <-> In name l) as Hsome.
  { intros l. rewrite in_map_iff. split.
    - intros (x & E & Hx). now inversion E; subst.
    - intros H. now exists name. }
  assert (forall l : list (string * string),
             map (fun kv => Some (fst kv)) l = map Some (map fst l)) as Hmap
      by (intros l; now rewrite map_map).
  unfold dict_of_line.
  destruct (Nat.ltb (List.length names) (List.length fields)) eqn:E1.
  - apply Nat.ltb_lt in E1.
    rewrite keys_set, keys_fold_set, Hmap, Hsome, map_fst_combine.
    rewrite firstn_all2 by lia. simpl. intuition congruence.
  - apply Nat.ltb_ge in E1.
    destruct (Nat.ltb (List.length fields) (List.length names)) eqn:E2.
    + rewrite keys_fold_set, keys_fold_set, Hmap, !Hsome, map_fst_combine.
      simpl. rewrite <- (firstn_skipn (List.length fields) names) at 3.
      rewrite in_app_iff. intuition.
    + apply Nat.ltb_ge in E2.
      rewrite keys_fold_set, Hmap, Hsome, map_fst_combine.
      rewrite firstn_all2 by lia. simpl. intuition.
Qed.

Lemma dict_rows_lines (names : list string) (stream : list (exn + list string))
      (rows : list row) :
  dict_rows names stream = Ok rows ->
  Forall (fun r => exists fields, r = dict_of_line names fields) rows.
Proof.
  revert rows. induction stream as [|[e|[|f fields]] stream IH]; intros rows; simpl.
  - intros E. inversion E. constructor.
  - discriminate.
  - apply IH.
  - destruct (dict_rows names stream) as [ds|e]; simpl; [|discriminate].
    intros E. inversion E. constructor; [now eexists|]. now apply IH.
Qed.

(** X7. Every row [read_data] returns has a value under each column name
    of the header line and under no other name: a lookup of a header name
    succeeds (the value is the field, or [None] where the line is short),
    a lookup of any other name raises [KeyError]. *)
Theorem read_data_rows_have_the_columns (w : world) (filename : string)
        (s s' : state) (names : list string) (stream : list (exn + list string))
        (rows : list row) :
  fs_open w filename = inr (inr names :: stream) ->
  read_data w filename s = (Ok (Some rows), s') ->
  forall r name,
    In r rows ->
    (In name names -> exists v, getitem r name = Ok v) /\
    (~ In name names -> getitem r name = Raise (KeyError name)).
Proof.
  intros Hopen Hread r name Hr.
  rewrite read_data_run in Hread. unfold load in Hread. rewrite Hopen in Hread.
  simpl in Hread.
  destruct (dict_rows names stream) as [rows'|e] eqn:E; [|discriminate].
  inversion Hread. subst rows'.
  apply dict_rows_lines in E. rewrite Forall_forall in E.
  destruct (E r Hr) as [fields ->].
  split.
  - intros H. now apply getitem_in_keys, dict_of_line_columns.
  - intros H. apply getitem_not_in_keys. now rewrite dict_of_line_columns.
Qed.

Lemma read_data_rows_have_the_columns_witness :
  (In "Region" Sample.names ->
   exists v,
     getitem (dict_of_line Sample.names ["2024-01-01"; "East"; "Widget"; "100.00"])
             "Region" = Ok v) /\
  (~ In "Region" Sample.names ->
   getitem (dict_of_line Sample.names ["2024-01-01"; "East"; "Widget"; "100.00"])
           "Region" = Raise (KeyError "Region")).
Proof.
  exact (read_data_rows_have_the_columns Sample.two_records "/app/sales_data.csv"
           initial initial Sample.names (map inr Sample.two_lines)
           (Sample.rows_of Sample.two_lines) eq_refl eq_refl
           (dict_of_line Sample.names ["2024-01-01"; "East"; "Widget"; "100.00"])
           "Region" (or_introl eq_refl)).
Defined.

Lemma get_set {V} (k k' : key) (v : V) (d : PyDict.dict key V) :
  PyDict.get key_eqb k (PyDict.set key_eqb k' v d)
  = if key_eqb k k' then Some v else PyDict.get key_eqb k d.
Proof.
  induction d as [|[k0 v0] d IH]; simpl.
  - reflexivity.
  - destruct (key_eqb k' k0) eqn:E; simpl.
    + apply key_eqb_eq in E. subst k0. now destruct (key_eqb k k').
    + destruct (key_eqb k k0) eqn:E0.
      * apply key_eqb_eq in E0. subst k0.
        destruct (key_eqb k k') eqn:E1; [|reflexivity].
        apply key_eqb_eq in E1. subst. now rewrite key_eqb_refl in E.
      * exact IH.
Qed.

Lemma get_fold_set_other {X V} (g : X -> key) (h : X -> V) (l : list X)
      (d : PyDict.dict key V) (k : key) :
  ~ In k (map g l) ->
  PyDict.get key_eqb k (fold_left (fun d x => PyDict.set key_eqb (g x) (h x) d) l d)
  = PyDict.get key_eqb k d.
Proof.
  revert d. induction l as [|x l IH]; intros d Hk; simpl in *.
  - reflexivity.
  - rewrite IH by tauto. rewrite get_set.
    destruct (key_eqb k (g x)) eqn:E; [|reflexivity].
    apply key_eqb_eq in E. subst k. tauto.
Qed.

Lemma get_fold_set_in {X V} (g : X -> key) (h : X -> V) (l : list X)
      (d : PyDict.dict key V) (x : X) :
  NoDup (map g l) -> In x l ->
  PyDict.get key_eqb (g x) (fold_left (fun d x => PyDict.set key_eqb (g x) (h x) d) l d)
  = Some (h x).
Proof.
  revert d. induction l as [|y l IH]; intros d Hnd Hx; simpl in *; [contradiction|].
  inversion Hnd as [|? ? Hy Hnd']; subst.
  destruct Hx as [->|Hx].
  - rewrite get_fold_set_other by assumption.
    now rewrite get_set, key_eqb_refl.
  - now apply IH.
Qed.

Lemma Forall2_of_combine {A B} (P : A -> B -> Prop) (l : list A) (l' : list B) :
  List.length l = List.length l' ->
  (forall x y, In (x, y) (combine l l') -> P x y) ->
  Forall2 P l l'.
Proof.
  revert l'. induction l as [|x l IH]; intros [|y l'] Hlen H; simpl in *;
    try discriminate; constructor.
  - apply H. now left.
  - apply IH; [congruence|]. intros. apply H. now right.
Qed.

Lemma NoDup_some_fst (l : list (string * string)) :
  NoDup (map fst l) -> NoDup (map (fun kv => Some (fst kv)) l).
Proof.
  induction l as [|[a b] l IH]; simpl; intros H; inversion H as [|? ? Ha Hl]; subst;
    constructor.
  - rewrite in_map_iff. intros ([a' b'] & E & Hin). simpl in E. inversion E. subst a'.
    apply Ha. apply in_map_iff. now exists (a, b').
  - now apply IH.
Qed.

(** The row of a line with as many fields as the header has names, all
    different: each name gives its field. *)
Lemma dict_of_line_fields (names fields : list string) :
  NoDup names -> List.length fields = List.length names ->
  Forall2 (fun n f => getitem (dict_of_line names fields) n = Ok (CStr f)) names fields.
Proof.
  intros Hnd Hlen. apply Forall2_of_combine; [congruence|].
  intros n f Hin. unfold getitem, dict_of_line.
  rewrite Hlen, Nat.ltb_irrefl.
  rewrite (get_fold_set_in (fun kv : string * string => Some (fst kv))
                           (fun kv => CStr (snd kv)) _ [] (n, f)).
  - reflexivity.
  - apply NoDup_some_fst. rewrite map_fst_combine, firstn_all2 by lia. assumption.
  - assumption.
Qed.

Lemma full_lines_are_kept (names : list string) (lines : list (list string)) :
  names <> [] ->
  Forall (fun fields => List.length fields = List.length names) lines ->
  filter (fun fields => negb (Nat.eqb (List.length fields) 0)) lines = lines.
Proof.
  intros Hne. induction 1 as [|fields lines Hf _ IH]; simpl; [reflexivity|].
  rewrite Hf, IH. destruct names; [congruence|reflexivity].
Qed.

(** X8. On a file that can be read, whose header has distinct names and
    whose lines each have as many fields as the header, [read_data]
    returns one row per line, in the order of the file, and prints
    nothing; in the row of a line each column name gives the field of
    that column. *)
Theorem read_data_rows_hold_the_fields (w : world) (filename : string) (s : state)
        (names : list string) (lines : list (list string)) :
  fs_open w filename = inr (map inr (names :: lines)) ->
  NoDup names ->
  names <> [] ->
  Forall (fun fields => List.length fields = List.length names) lines ->
  exists rows,
    read_data w filename s = (Ok (Some rows), s) /\
    Forall2 (fun fields r =>
               Forall2 (fun n f => getitem r n = Ok (CStr f)) names fields)
            lines rows.
Proof.
  intros Hopen Hnd Hne Hlines.
  exists (map (dict_of_line names) lines). split.
  - rewrite read_data_run. unfold load. rewrite Hopen, dict_reader_in_order.
    now rewrite (full_lines_are_kept names lines Hne Hlines).
  - clear Hopen. induction Hlines as [|fields lines Hf _ IH]; simpl; constructor.
    + now apply dict_of_line_fields.
    + exact IH.
Qed.

Lemma sample_names_are_distinct : NoDup Sample.names.
Proof.
  repeat constructor; simpl; intros H;
    repeat (destruct H as [H|H]; [discriminate H|]); exact H.
Qed.

Lemma read_data_rows_hold_the_fields_witness :
  exists rows,
    read_data Sample.two_records "/app/sales_data.csv" initial
    = (Ok (Some rows), initial) /\
    Forall2 (fun fields r =>
               Forall2 (fun n f => getitem r n = Ok (CStr f)) Sample.names fields)
            Sample.two_lines rows.
Proof.
  apply (read_data_rows_hold_the_fields Sample.two_records "/app/sales_data.csv"
           initial Sample.names Sample.two_lines eq_refl sample_names_are_distinct).
  - discriminate.
  - repeat constructor.
Defined.

(** * More of [main] and [generate_report] *)

(** Closes a goal [~ In line lines] for a line and lines that differ in
    their first characters. *)
Ltac not_printed :=
  let H := fresh in
  intros H; simpl in H;
  repeat (destruct H as [H|H]; [discriminate H|]); exact H.

Section MoreRuns.
Context {py : Python}.

Lemma sales_parse (data : list row) :
  Forall (fun r => is_sale r = true) data ->
  exists regions products qs,
    Forall2 (fun r k => key_of "Region" r = Ok k) data regions /\
    Forall2 (fun r k => key_of "Product" r = Ok k) data products /\
    Forall2 (fun r q => amount r = Ok q) data qs.
Proof.
  induction 1 as [|r data Hr _ (regions & products & qs & Fr & Fp & Fq)].
  - exists [], [], []. repeat split; constructor.
  - unfold is_sale in Hr.
    apply andb_prop in Hr as [Hr Ha]. apply andb_prop in Hr as [Hg Hp].
    destruct (key_of "Region" r) as [g|] eqn:Eg; try discriminate.
    destruct (key_of "Product" r) as [p|] eqn:Ep; try discriminate.
    destruct (amount r) as [q|] eqn:Eq; try discriminate.
    exists (g :: regions), (p :: products), (q :: qs).
    repeat split; constructor; auto.
Qed.

Lemma missing_column (names : list string) (stream : list (exn + list string))
      (rows : list row) (name : string) :
  dict_rows names stream = Ok rows -> ~ In name names ->
  Forall (fun r => getitem r name = Raise (KeyError name)) rows.
Proof.
  intros E Hname. apply dict_rows_lines in E.
  eapply Forall_impl; [|exact E]. intros r [fields ->].
  apply getitem_not_in_keys. now rewrite dict_of_line_columns.
Qed.

(** X9. A file whose header has no [Amount] column and that has at least
    one data row: the load succeeds, [analyze_data] raises
    [KeyError('Amount')] on the first row, and the exception ends [main]
    after its first two lines, with no diagnostic and no file written. *)
Theorem missing_amount_column_ends_the_run (w : world) (s : state)
        (names : list string) (stream : list (exn + list string)) (rows : list row) :
  fs_open w (input_path w) = inr (inr names :: stream) ->
  dict_rows names stream = Ok rows ->
  rows <> [] ->
  ~ In "Amount" names ->
  read_data w (input_path w) s = (Ok (Some rows), s) /\
  analyze_data (Some rows) = Raise (KeyError "Amount") /\
  main w s
  = (Raise (KeyError "Amount"), printed s ["Reading data..."; "Analyzing data..."]).
Proof.
  intros Hopen Hrows Hne Hname.
  assert (load w (input_path w) = Ok rows) as Hload
      by (unfold load; rewrite Hopen; exact Hrows).
  pose proof (missing_column names stream rows "Amount" Hrows Hname) as Hmiss.
  destruct rows as [|r rows]; [congruence|].
  assert (analyze_data (Some (r :: rows)) = Raise (KeyError "Amount")) as Ea.
  { unfold analyze_data. cbn [truthy_list negb items]. simpl py_sum.
    unfold each_amount, amount. inversion Hmiss as [|? ? Hr _]; subst.
    now rewrite Hr. }
  rewrite read_data_run, main_run, Hload, Ea. repeat split.
Qed.

(** X10. A file whose header has no [Date] column and whose rows
    [analyze_data] can read: the analysis succeeds, [generate_report]
    raises [KeyError('Date')] at the first row of the sample table, and
    the exception ends [main] after its first three lines; the report is
    not written. *)
Theorem missing_date_column_ends_the_run (w : world) (s : state)
        (names : list string) (stream : list (exn + list string)) (rows : list row) :
  fs_open w (input_path w) = inr (inr names :: stream) ->
  dict_rows names stream = Ok rows ->
  rows <> [] ->
  Forall (fun r => is_sale r = true) rows ->
  ~ In "Date" names ->
  (exists a, analyze_data (Some rows) = Ok (Some a)) /\
  main w s
  = (Raise (KeyError "Date"),
     printed s ["Reading data..."; "Analyzing data..."; "Generating report..."]).
Proof.
  intros Hopen Hrows Hne Hsale Hname.
  assert (load w (input_path w) = Ok rows) as Hload
      by (unfold load; rewrite Hopen; exact Hrows).
  pose proof (missing_column names stream rows "Date" Hrows Hname) as Hmiss.
  destruct (sales_parse rows Hsale) as (regions & products & qs & Fr & Fp & Fq).
  pose proof (analyze_data_parsed rows regions products qs Hne Fr Fp Fq) as Ea.
  split; [eexists; exact Ea|].
  rewrite main_run, Hload.
  destruct rows as [|r rows]; [congruence|].
  rewrite Ea. unfold report_body.
  cbn [entries summary_block lookup rbind
       total_sales average_sale sales_by_region sales_by_product record_count].
  cbn [firstn table_rows]. unfold table_row at 1.
  inversion Hmiss as [|? ? Hr _]; subst. now rewrite Hr.
Qed.

(** What [main] prints and writes, case by case. *)
Lemma main_outcomes (w : world) (s : state) :
  exists lines,
    stdout (snd (main w s)) = stdout s ++ lines /\
    ((written (snd (main w s)) = written s /\
      (lines = ["Reading data..."] \/
       (exists e, lines = "Reading data..." :: diagnostic (input_path w) e) \/
       lines = ["Reading data..."; "Analyzing data..."] \/
       lines = ["Reading data..."; "Analyzing data..."; "Generating report..."]))
     \/
     (exists body,
        fst (main w s) = Ok tt /\
        written (snd (main w s))
        = ("sales_report.pdf", report_document w body) :: written s /\
        lines = ["Reading data..."; "Analyzing data..."; "Generating report...";
                 "Report generated successfully: sales_report.pdf"])).
Proof.
  rewrite main_run.
  destruct (load w (input_path w)) as [[|r rows]|e].
  - eexists. split; [reflexivity|]. left. split; [reflexivity|]. now left.
  - destruct (analyze_data (Some (r :: rows))) as [a|e].
    + destruct (report_body w (r :: rows) (entries a)) as [body|e].
      * eexists. split; [reflexivity|]. right. exists body. repeat split.
      * eexists. split; [reflexivity|]. left. split; [reflexivity|]. tauto.
    + eexists. split; [reflexivity|]. left. split; [reflexivity|]. tauto.
  - eexists. split; [reflexivity|]. left. split; [reflexivity|].
    right. left. now exists e.
Qed.

(** X11. [main] ends in silence, [Reading data...] printed and nothing
    else, nothing written and no exception, exactly when the file opens,
    every line is read and there is no data row: an empty file, a header
    alone, or a header followed by empty lines. *)
Theorem main_is_silent_iff_no_rows (w : world) (s : state) :
  main w s = (Ok tt, printed s ["Reading data..."])
  <-> load w (input_path w) = Ok [].
Proof.
  rewrite main_run. split.
  - destruct (load w (input_path w)) as [[|r rows]|e]; [reflexivity| |].
    + destruct (analyze_data (Some (r :: rows))) as [a|e]; [|discriminate].
      destruct (report_body w (r :: rows) (entries a)) as [body|e]; [|discriminate].
      intros E. inversion E as [[Hout Hwritten]].
      apply app_inv_head in Hout. discriminate.
    + intros E. inversion E as [Hout]. apply app_inv_head in Hout.
      inversion Hout as [Hd]. now apply diagnostic_not_empty in Hd.
  - now intros ->.
Qed.

(** X12. Three lines of the program are never printed by [main]:
    ["Error in data analysis."], ["Failed to generate report."] and
    ["Cannot generate report without valid data and analysis."]. The
    guard on the rows at the top of [main] leaves the branches that print
    them out of reach. *)
Theorem main_never_prints_its_failure_lines (w : world) (s : state) :
  exists lines,
    stdout (snd (main w s)) = stdout s ++ lines /\
    ~ In "Error in data analysis." lines /\
    ~ In "Failed to generate report." lines /\
    ~ In "Cannot generate report without valid data and analysis." lines.
Proof.
  destruct (main_outcomes w s) as (lines & Hout & Hcases).
  exists lines. split; [assumption|].
  destruct Hcases as [[_ [->|[[e ->]|[->| ->]]]]|(body & _ & _ & ->)];
    try (repeat split; not_printed).
  destruct e; repeat split; not_printed.
Qed.

(** X13. [main] writes one file or none: it writes [sales_report.pdf], the
    document of [generate_report], exactly in the runs that return and
    end on the line ["Report generated successfully: sales_report.pdf"];
    in every other run no file is written and that line is not
    printed. *)
Theorem main_writes_iff_it_reports_success (w : world) (s : state) :
  exists lines,
    stdout (snd (main w s)) = stdout s ++ lines /\
    ((written (snd (main w s)) = written s /\
      ~ In "Report generated successfully: sales_report.pdf" lines)
     \/
     (exists body,
        fst (main w s) = Ok tt /\
        written (snd (main w s))
        = ("sales_report.pdf", report_document w body) :: written s /\
        last lines "" = "Report generated successfully: sales_report.pdf")).
Proof.
  destruct (main_outcomes w s) as (lines & Hout & Hcases).
  exists lines. split; [assumption|].
  destruct Hcases as [[Hw [->|[[e ->]|[->| ->]]]]|(body & Hr & Hw & ->)].
  - left. split; [assumption|not_printed].
  - left. split; [assumption|]. destruct e; not_printed.
  - left. split; [assumption|not_printed].
  - left. split; [assumption|not_printed].
  - right. exists body. repeat split; assumption.
Qed.

(** [generate_report] writes the whole document or nothing. When it
    returns [True] it has added one file, under the name it was given, and
    printed nothing; when it returns [False] it has printed one line and
    written nothing; when a lookup or a conversion raises on the way, it
    has printed nothing and written nothing. *)
Lemma generate_report_writes_all_or_nothing (w : world) (data : option (list row))
        (a : option analysis) (output_filename : string) (s : state) :
  match fst (generate_report w data a output_filename s) with
  | Ok true =>
      truthy_list data = true /\ truthy_analysis a = true /\
      exists body,
        report_body w (items data) (entries a) = Ok body /\
        snd (generate_report w data a output_filename s)
        = {| stdout := stdout s;
             written := (output_filename, report_document w body) :: written s |}
  | Ok false =>
      (truthy_list data = false \/ truthy_analysis a = false) /\
      snd (generate_report w data a output_filename s)
      = printed s ["Cannot generate report without valid data and analysis."]
  | Raise e =>
      report_body w (items data) (entries a) = Raise e /\
      snd (generate_report w data a output_filename s) = s
  end.
Proof.
  rewrite generate_report_run.
  destruct (truthy_list data), (truthy_analysis a); simpl; try tauto.
  destruct (report_body w (items data) (entries a)) as [body|e]; simpl.
  - repeat split. now exists body.
  - now split.
Qed.
End MoreRuns.

Lemma missing_amount_column_ends_the_run_witness :
  read_data Sample.no_amount "/app/sales_data.csv" initial
  = (Ok (Some (map (dict_of_line Sample.no_amount_names) Sample.no_amount_lines)),
     initial) /\
  @analyze_data python_first_seen
    (Some (map (dict_of_line Sample.no_amount_names) Sample.no_amount_lines))
  = Raise (KeyError "Amount") /\
  @main python_first_seen Sample.no_amount initial
  = (Raise (KeyError "Amount"),
     printed initial ["Reading data..."; "Analyzing data..."]).
Proof.
  apply (@missing_amount_column_ends_the_run python_first_seen Sample.no_amount initial
           Sample.no_amount_names (map inr Sample.no_amount_lines) _ eq_refl eq_refl).
  - discriminate.
  - not_printed.
Defined.

Lemma missing_date_column_ends_the_run_witness :
  (exists a,
     @analyze_data python_first_seen (Some Sample.two_lines_other_columns)
     = Ok (Some a)) /\
  @main python_first_seen Sample.no_date initial
  = (Raise (KeyError "Date"),
     printed initial
       ["Reading data..."; "Analyzing data..."; "Generating report..."]).
Proof.
  apply (@missing_date_column_ends_the_run python_first_seen Sample.no_date initial
           Sample.other_names (map inr Sample.other_lines) _ eq_refl eq_refl).
  - discriminate.
  - repeat constructor.
  - not_printed.
Defined.



Section WhenItReturns.
Context {py : Python}.

Lemma parsed_rows_are_sales (data : list row) (regions products : list key)
      (qs : list Q) :
  Forall2 (fun r k => key_of "Region" r = Ok k) data regions ->
  Forall2 (fun r k => key_of "Product" r = Ok k) data products ->
  Forall2 (fun r q => amount r = Ok q) data qs ->
  Forall (fun r => is_sale r = true) data.
Proof.
  intros Fr. revert products qs.
  induction Fr as [|r k data regions Hk Fr IH]; intros products qs Fp Fq.
  - constructor.
  - inversion Fp as [|? p ? products' Hp Fp']; subst.
    inversion Fq as [|? q ? qs' Hq Fq']; subst.
    constructor; [|eapply IH; eassumption].
    unfold is_sale. now rewrite Hk, Hp, Hq.
Qed.

(** X15. [analyze_data] returns a dictionary exactly for a non-empty list
    in which every row has a [Region] and a [Product] that are strings or
    [None] and an [Amount] that [float] accepts; the [Date] and any other
    column play no part. *)
Theorem analyze_data_returns_iff (data : list row) :
  (exists a, analyze_data (Some data) = Ok (Some a))
  <-> data <> [] /\ Forall (fun r => is_sale r = true) data.
Proof.
  split.
  - intros [a Ea].
    destruct (analyze_data_returns data a Ea)
      as (Hne & regions & products & qs & Fr & Fp & Fq).
    split; [assumption|]. eapply parsed_rows_are_sales; eassumption.
  - intros [Hne Hsale].
    destruct (sales_parse data Hsale) as (regions & products & qs & Fr & Fp & Fq).
    eexists. apply (analyze_data_parsed data regions products qs); assumption.
Qed.
End WhenItReturns.

(** * More of [analyze_data] on the heap *)

Module HeapAllocation.
Local Abbreviation analyze_rows := analyze_data (only parsing).
Import Heap HeapFacts HeapRefinement.

Section Allocation.
Context {py : Python}.

(** X16. A call of [analyze_data] that returns a dictionary allocates
    three objects and touches nothing else: the dictionary it returns,
    which is new, and the two sales dictionaries, which are new and which
    the returned dictionary refers to. The caller's list and rows are
    shared with nothing the result can reach. *)
Theorem analyze_data_returns_new_dictionaries (h : heap) (data : loc)
        (rows : list row) (a : analysis) :
  holds h data rows ->
  analyze_rows (Some rows) = Ok (Some a) ->
  exists ar by_region by_product,
    Heap.analyze_data (Some data) h
    = (Ok (Some (List.length h)),
       h ++ [OAnalysis ar; OSales by_region; OSales by_product]) /\
    ref_sales_by_region ar = Some (S (List.length h)) /\
    ref_sales_by_product ar = Some (S (S (List.length h))) /\
    sales_by_region a = Some by_region /\
    sales_by_product a = Some by_product /\
    ref_total_sales ar = total_sales a /\
    ref_average_sale ar = average_sale a /\
    ref_record_count ar = record_count a.
Proof.
  intros Hh Ea.
  destruct (analyze_data_returns rows a Ea)
    as (Hne & regions & products & qs & Fr & Fp & Fq).
  rewrite (analyze_data_parsed rows regions products qs Hne Fr Fp Fq) in Ea.
  inversion Ea. subst a. clear Ea.
  eexists _, _, _. split.
  - apply (analyze_data_on_heap_parsed h data rows regions products qs); assumption.
  - repeat split.
Qed.

(** A call of [analyze_data] that returns [None], for [None] or for a list
    with no row, allocates nothing: the heap is as it was. *)
Lemma analyze_data_of_nothing_allocates_nothing (h : heap) (data : option loc) :
  data = None \/ (exists l, data = Some l /\ holds h l []) ->
  Heap.analyze_data data h = (Ok None, h).
Proof.
  intros [->|(l & -> & Hl)]; [reflexivity|].
  unfold Heap.analyze_data.
  now rewrite (hbind_ok _ _ h h _ (len_holds h l [] Hl)).
Qed.
End Allocation.

Lemma analyze_data_returns_new_dictionaries_witness :
  exists ar by_region by_product,
    @Heap.analyze_data python_first_seen (Some 2) Sample.heap
    = (Ok (Some 3),
       Sample.heap ++ [OAnalysis ar; OSales by_region; OSales by_product]) /\
    ref_sales_by_region ar = Some 4 /\
    ref_sales_by_product ar = Some 5 /\
    sales_by_region Sample.analysis_of_two = Some by_region /\
    sales_by_product Sample.analysis_of_two = Some by_product /\
    ref_total_sales ar = total_sales Sample.analysis_of_two /\
    ref_average_sale ar = average_sale Sample.analysis_of_two /\
    ref_record_count ar = record_count Sample.analysis_of_two.
Proof.
  apply (@analyze_data_returns_new_dictionaries python_first_seen Sample.heap 2
           (Sample.rows_of Sample.two_lines) Sample.analysis_of_two).
  - exists [0; 1]. split; [reflexivity|]. repeat constructor.
  - reflexivity.
Defined.

End HeapAllocation.

(** * More of the three functions *)

Section LastProperties.
Context {py : Python}.

Lemma dict_rows_unreadable (names : list string) (stream : list (exn + list string))
      (e : exn) :
  In (inl e) stream -> exists e', dict_rows names stream = Raise e'.
Proof.
  induction stream as [|[e0|[|f fields]] stream IH]; simpl; intros Hin.
  - contradiction.
  - now exists e0.
  - destruct Hin as [Hin|Hin]; [discriminate|]. now apply IH.
  - destruct Hin as [Hin|Hin]; [discriminate|].
    destruct (IH Hin) as [e' ->]. now exists e'.
Qed.

(** X17. No partial result: when one line of the file cannot be read,
    wherever it stands, [read_data] returns [None] and not the rows read
    before it; it prints the diagnostic of an exception and nothing
    else. *)
Theorem read_data_keeps_no_partial_rows (w : world) (filename : string) (s : state)
        (stream : list (exn + list string)) (e : exn) :
  fs_open w filename = inr stream ->
  In (inl e) stream ->
  exists e',
    read_data w filename s = (Ok None, printed s (diagnostic filename e')).
Proof.
  intros Hopen Hin. rewrite read_data_run. unfold load. rewrite Hopen.
  destruct stream as [|[e0|names] stream]; simpl in *.
  - contradiction.
  - now exists e0.
  - destruct Hin as [Hin|Hin]; [discriminate|].
    destruct (dict_rows_unreadable names stream e Hin) as [e' ->]. now exists e'.
Qed.

(** X18. [generate_report] reads the first ten rows and no other: on two
    non-empty lists of rows with the same first ten, and the same
    analysis, it does the same, whatever the later rows hold. *)
Theorem generate_report_reads_ten_rows (w : world) (data data' : list row)
        (a : option analysis) (output_filename : string) (s : state) :
  data <> [] ->
  firstn 10 data = firstn 10 data' ->
  generate_report w (Some data) a output_filename s
  = generate_report w (Some data') a output_filename s.
Proof.
  intros Hne Hten.
  assert (data' <> []) as Hne'.
  { intros ->. destruct data; [congruence|discriminate]. }
  rewrite !generate_report_run.
  destruct data as [|r data]; [congruence|].
  destruct data' as [|r' data']; [congruence|].
  cbn [truthy_list negb orb items]. unfold report_body. now rewrite Hten.
Qed.

End LastProperties.

Lemma read_data_keeps_no_partial_rows_witness :
  exists e',
    read_data Sample.broken_line "/app/sales_data.csv" initial
    = (Ok None, printed initial (diagnostic "/app/sales_data.csv" e')).
Proof.
  apply (read_data_keeps_no_partial_rows Sample.broken_line "/app/sales_data.csv"
           initial Sample.broken_stream
           (UnicodeDecodeError "'utf-8' codec can't decode byte 0xff") eq_refl).
  right. right. left. reflexivity.
Defined.

Lemma generate_report_reads_ten_rows_witness :
  @generate_report python_first_seen Sample.fifteen_records
    (Some (Sample.rows_of Sample.fifteen_lines)) (Some Sample.analysis_of_two)
    "sales_report.pdf" initial
  = @generate_report python_first_seen Sample.fifteen_records
      (Some (firstn 10 (Sample.rows_of Sample.fifteen_lines)
             ++ Sample.rows_of Sample.bad_amount_lines))
      (Some Sample.analysis_of_two) "sales_report.pdf" initial.
Proof.
  apply (@generate_report_reads_ten_rows python_first_seen).
  - discriminate.
  - reflexivity.
Defined.

